(** * NetFieldProxyWebSocketClient: the protocol client, embedded and verified

    A shallow embedding of [src/NetFieldProxyWebSocketClient.js].

    - JavaScript values are the inductive [Value]; numbers are IEEE-754
      binary64 values, taken from the library's [spec_float]; a BigInt stands
      for the values that [JSON.stringify] refuses.
    - The topic, the one string that reaches [btoa], is a sequence of UTF-16
      code units, so that code units above 255, on which the platform's [btoa]
      throws, are inputs of the model.  The content of every other string
      decides nothing in the source; they are strings of code units below
      256.
    - A method of the class is a computation [M A]: it reads and writes the
      client object, appends to a log of observable effects (a call of a
      caller-supplied handler, a call of the socket's [send] or [close]) and
      either returns or throws.
    - [JSON.parse], [JSON.stringify], [btoa] and the digits that
      [Number.prototype.toString(36)] prints for a fraction are used by the
      source, not defined by it: they are the fields of [Platform].
    - The caller-supplied handlers are opaque callbacks: they return or throw,
      and they do not reach back into the client. *)

From Stdlib Require Import String Ascii List ZArith NArith Bool Lia.
From Stdlib Require Import Floats.SpecFloat.
Import ListNotations.
Open Scope string_scope.
Set Warnings "-register-all".

(** ** JavaScript values *)

Inductive Value : Type :=
| VUndefined
| VNull
| VBool (b : bool)
| VNum (x : spec_float)
| VStr (s : string)
| VArr (items : list Value)
| VObj (fields : list (string * Value))
| VBigInt (n : Z).

(** [ToBoolean] of ECMAScript: what [a && b] and [if (a)] test. *)
Definition ToBoolean (v : Value) : bool :=
  match v with
  | VUndefined | VNull => false
  | VBool b => b
  | VNum (S754_zero _) | VNum S754_nan => false
  | VNum _ => true
  | VStr s => negb (s =? "")
  | VArr _ | VObj _ => true
  | VBigInt n => negb (n =? 0)%Z
  end.

(** Whether [JSON.stringify] encodes the value: it throws a [TypeError] on a
    BigInt, wherever the BigInt sits.  (It throws the same [TypeError] on an
    object that contains itself; such an object is not a [Value], and the
    BigInt is the refused value of this development.) *)
Fixpoint serializable (v : Value) : bool :=
  match v with
  | VBigInt _ => false
  | VArr items => forallb serializable items
  | VObj fields => forallb (fun '(_, x) => serializable x) fields
  | _ => true
  end.

(** A string as its UTF-16 code units. *)
Definition string16 : Type := list N.

(** The value of the key [k] among the fields of an object, [undefined] when
    it has none; a decoded object lists each of its keys once. *)
Fixpoint own_property (k : string) (fields : list (string * Value)) : Value :=
  match fields with
  | [] => VUndefined
  | (k', v) :: rest => if k' =? k then v else own_property k rest
  end.

(** [v.k] for the four keys the source reads ([type], [message], [payload],
    [error]): none of them is on a built-in prototype, so the read is an
    own-property lookup on an object and [undefined] on every other value
    that is not [null] or [undefined]. *)
Definition Get (v : Value) (k : string) : Value :=
  match v with
  | VObj fields => own_property k fields
  | _ => VUndefined
  end.

(** What a [throw] carries. *)
Inductive Exn : Type :=
| SyntaxError
| TypeError
| InvalidCharacterError
| Thrown (v : Value).

(** ** Strings and numbers behind the client id *)

(** [s.substring(n)]: the string without its first [n] code units. *)
Fixpoint substring_from (n : nat) (s : string) : string :=
  match n, s with
  | O, _ => s
  | S _, EmptyString => EmptyString
  | S n', String _ rest => substring_from n' rest
  end.

Definition binary64_add : spec_float -> spec_float -> spec_float :=
  SFadd 53 1024.

(** The double 1: 2^52 * 2^-52. *)
Definition one : spec_float := S754_finite false 4503599627370496 (-52).

Definition digit36 (d : N) : ascii :=
  if (d <? 10)%N then ascii_of_N (48 + d) else ascii_of_N (87 + d).

Fixpoint base36_digits (fuel : nat) (n : N) (acc : string) : string :=
  match fuel with
  | O => acc
  | S fuel' =>
      let acc' := String (digit36 (n mod 36)) acc in
      if (n / 36 =? 0)%N then acc' else base36_digits fuel' (n / 36) acc'
  end.

(** The digits of a natural number in radix 36. *)
Definition N_toString36 (n : N) : string :=
  base36_digits (S (N.to_nat (N.log2 n))) n "".

(** The integer part and whether a fraction remains, for [m * 2^e]. *)
Definition integer_part (m : positive) (e : Z) : N :=
  match e with
  | Zneg p => N.shiftr (Npos m) (Npos p)
  | _ => N.shiftl (Npos m) (Z.to_N e)
  end.

Definition has_fraction (m : positive) (e : Z) : bool :=
  match e with
  | Zneg p => negb (N.shiftl (N.shiftr (Npos m) (Npos p)) (Npos p) =? Npos m)%N
  | _ => false
  end.

(** ** The event sink *)

(** What a handler is called with: the raw text of a frame, a decoded value,
    a caught exception, or the event object of the transport. *)
Inductive Arg : Type :=
| ARaw (data : string)
| AValue (v : Value)
| AError (e : Exn)
| ACloseEvent (code : Z) (reason : string)
| AErrorEvent (detail : string).

(** A caller-supplied handler: called with an argument, it returns ([None])
    or throws. *)
Definition Callback : Type := Arg -> option Exn.

(** [console.log], [console.error], [console.warn]: the defaults. *)
Definition console_log : Callback := fun _ => None.
Definition console_error : Callback := fun _ => None.
Definition console_warn : Callback := fun _ => None.

(** The four handler slots of the client. *)
Inductive Slot : Type :=
| OnPubMessage
| OnError
| OnClose
| OnUnexpectedMessage.

(** The fifth argument of the constructor; a missing handler is [None]. *)
Record HandlerOptions : Type := {
  opt_pubMessageHandler : option Callback;
  opt_errorHandler : option Callback;
  opt_closeHandler : option Callback;
  opt_unexpectedMessageHandler : option Callback
}.

(** ** The transport *)

Inductive ReadyState : Type :=
| CONNECTING
| OPEN
| CLOSING
| CLOSED.

Definition ReadyState_eqb (a b : ReadyState) : bool :=
  match a, b with
  | CONNECTING, CONNECTING | OPEN, OPEN | CLOSING, CLOSING | CLOSED, CLOSED => true
  | _, _ => false
  end.

(** Modelled from the spec: the transport is the [WebSocket] class, which the
    source obtains from the platform or from the [ws] package.  Section 4.3
    gives its contract: [connect] completes with an "open" event, [send]
    transmits on an open handle, [close] starts the closure of an open handle
    and is a no-op otherwise, and the events "open", "message", "error" and
    "close" arrive in wire order.  The source reads one field of the handle,
    [readyState], and compares it with the constant [OPEN]. *)
Record WebSocket : Type := {
  url : string;
  readyState : ReadyState
}.

(** ** The client object *)

Record NetFieldProxyWebSocketClient : Type := {
  endpoint : string;
  clientId : string;
  deviceId : string;
  topic : string16;
  authorization : string;
  pubMessageHandler : Callback;
  errorHandler : Callback;
  closeHandler : Callback;
  unexpectedMessageHandler : Callback;
  wsClient : option WebSocket
}.

Abbreviation Client := NetFieldProxyWebSocketClient.

Definition handler_of (c : Client) (h : Slot) : Callback :=
  match h with
  | OnPubMessage => pubMessageHandler c
  | OnError => errorHandler c
  | OnClose => closeHandler c
  | OnUnexpectedMessage => unexpectedMessageHandler c
  end.

Definition with_wsClient (c : Client) (ws : option WebSocket) : Client :=
  {| endpoint := endpoint c;
     clientId := clientId c;
     deviceId := deviceId c;
     topic := topic c;
     authorization := authorization c;
     pubMessageHandler := pubMessageHandler c;
     errorHandler := errorHandler c;
     closeHandler := closeHandler c;
     unexpectedMessageHandler := unexpectedMessageHandler c;
     wsClient := ws |}.

(** [wsClient && wsClient.readyState === wsClient.OPEN] *)
Definition is_open (c : Client) : bool :=
  match wsClient c with
  | Some ws => ReadyState_eqb (readyState ws) OPEN
  | None => false
  end.

(** ** Effects *)

(** What the world outside the client observes. *)
Inductive Effect : Type :=
| Invoke (h : Slot) (a : Arg)
| WsSend (data : string)
| WsClose (code : option Z) (data : option string)
| Uncaught (e : Exn).

(** A method body: from the client object to the effects it caused, the
    client object afterwards, and the value returned or exception thrown. *)
Record Outcome (A : Type) : Type := {
  log : list Effect;
  state : Client;
  result : A + Exn
}.

Arguments log {A} _.
Arguments state {A} _.
Arguments result {A} _.

Definition M (A : Type) : Type := Client -> Outcome A.

Definition ret {A : Type} (a : A) : M A :=
  fun c => {| log := []; state := c; result := inl a |}.

Definition throw {A : Type} (e : Exn) : M A :=
  fun c => {| log := []; state := c; result := inr e |}.

Definition bind {A B : Type} (m : M A) (k : A -> M B) : M B :=
  fun c =>
    let o := m c in
    match result o with
    | inl a =>
        let o' := k a (state o) in
        {| log := log o ++ log o'; state := state o'; result := result o' |}
    | inr e => {| log := log o; state := state o; result := inr e |}
    end.

(** [try { m } catch (error) { k error }] *)
Definition try_catch {A : Type} (m : M A) (k : Exn -> M A) : M A :=
  fun c =>
    let o := m c in
    match result o with
    | inl a => o
    | inr e =>
        let o' := k e (state o) in
        {| log := log o ++ log o'; state := state o'; result := result o' |}
    end.

Definition this : M Client :=
  fun c => {| log := []; state := c; result := inl c |}.

Definition emit (e : Effect) : M unit :=
  fun c => {| log := [e]; state := c; result := inl tt |}.

Notation "x <- m ;; k" := (bind m (fun x => k))
  (at level 61, m at next level, right associativity).
Notation "m ;;; k" := (bind m (fun _ => k))
  (at level 61, right associativity).

(** [this.<slot>(a)]: the call is observed, then the handler returns or
    throws. *)
Definition invoke (h : Slot) (a : Arg) : M unit :=
  c <- this ;;
  emit (Invoke h a) ;;;
  match handler_of c h a with
  | None => ret tt
  | Some e => throw e
  end.

(** Modelled from the spec: [wsClient.send(data)] on an open handle transmits
    the frame. *)
Definition ws_send (data : string) : M unit :=
  emit (WsSend data).

(** The client with its socket, if any, in state [s]. *)
Definition set_readyState (s : ReadyState) (c : Client) : Client :=
  with_wsClient c
    (option_map (fun ws => {| url := url ws; readyState := s |}) (wsClient c)).

(** Modelled from the spec: [wsClient.close(code, data)] on an open handle
    starts the closure, and the handle leaves the open state at once. *)
Definition ws_close (code : option Z) (data : option string) : M unit :=
  fun c =>
    {| log := [WsClose code data];
       state := set_readyState CLOSING c;
       result := inl tt |}.

(** Modelled from the spec: the transport moves the handle to [s] when it
    reports "open" or "close". *)
Definition ws_set_readyState (s : ReadyState) : M unit :=
  fun c => {| log := []; state := set_readyState s c; result := inl tt |}.

(** A call that did nothing: no effect, the client as it was, a normal
    return. *)
Definition nothing (c : Client) : Outcome unit :=
  {| log := []; state := c; result := inl tt |}.

(** What [try { this.h(a) } catch (error) { this.errorHandler(error) }] adds
    after the call of [h]: a call of the error handler when [h] throws. *)
Definition after_throw (c : Client) (h : Slot) (a : Arg) : list Effect :=
  match handler_of c h a with
  | None => []
  | Some e => [Invoke OnError (AError e)]
  end.

(** ** What the platform provides *)

(** The functions the source calls and does not define. *)
Class Platform : Type := {
  (** the digits after the point that [toString(36)] prints for a number with
      a fraction; ECMAScript leaves them to the implementation *)
  fraction_digits36 : spec_float -> string;
  (** [JSON.parse]: the decoded value, or [None] where it throws *)
  JSON_parse : string -> option Value;
  (** [JSON.stringify], on the values it encodes *)
  JSON_stringify : Value -> string;
  (** [btoa]: the base64 text, or the exception it throws; the browser's
      throws on a code unit above 255, the [btoa] package of node does not *)
  btoa : string16 -> string + Exn
}.

Section Client.

Context {platform : Platform}.

(** [x.toString(36)]. *)
Definition Number_toString36 (x : spec_float) : string :=
  match x with
  | S754_nan => "NaN"
  | S754_infinity s => if s then "-Infinity" else "Infinity"
  | S754_zero _ => "0"
  | S754_finite s m e =>
      (if s then "-" else "") ++ N_toString36 (integer_part m e) ++
      (if has_fraction m e then "." ++ fraction_digits36 x else "")
  end.

(** [(Math.random() + 1).toString(36).substring(7)], for the value [random]
    that [Math.random()] returns. *)
Definition generate_clientId (random : spec_float) : string :=
  substring_from 7 (Number_toString36 (binary64_add random one)).

(** [_initializeWebSocketClient]: a new socket for the endpoint, still
    connecting.  The four listeners it installs ([onmessage], [onerror],
    [onclose], [onopen]) are the cases of [deliver] below. *)
Definition _initializeWebSocketClient (endpoint : string) : WebSocket :=
  {| url := endpoint; readyState := CONNECTING |}.

Definition default (d : Callback) (o : option Callback) : Callback :=
  match o with
  | Some f => f
  | None => d
  end.

Definition constructor (random : spec_float)
    (endpoint authorization deviceId : string) (topic : string16)
    (handlers : HandlerOptions) : Client :=
  {| endpoint := endpoint;
     clientId := generate_clientId random;
     deviceId := deviceId;
     topic := topic;
     authorization := authorization;
     pubMessageHandler := default console_log (opt_pubMessageHandler handlers);
     errorHandler := default console_error (opt_errorHandler handlers);
     closeHandler := default console_log (opt_closeHandler handlers);
     unexpectedMessageHandler :=
       default console_warn (opt_unexpectedMessageHandler handlers);
     wsClient := Some (_initializeWebSocketClient endpoint) |}.

Definition send (dataString : string) : M unit :=
  c <- this ;;
  if is_open c then ws_send dataString else ret tt.

(** [this.send(JSON.stringify(dataObj))]: the encoding comes first, and
    throws on a value it refuses. *)
Definition sendObject (dataObj : Value) : M unit :=
  if serializable dataObj then send (JSON_stringify dataObj)
  else throw TypeError.

(** The object [subscribePayload], with [topicAsBase64] computed. *)
Definition subscribePayload (c : Client) (deviceId topicAsBase64 : string)
  : Value :=
  VObj [ ("id", VStr (clientId c));
         ("path", VStr ("/devices/" ++ deviceId ++ "/netfieldproxy/" ++ topicAsBase64));
         ("type", VStr "sub") ].

Definition subscribeToTopic (deviceId : string) (topic : string16) : M unit :=
  match btoa topic with
  | inr e => throw e
  | inl topicAsBase64 =>
      c <- this ;;
      sendObject (subscribePayload c deviceId topicAsBase64)
  end.

Definition close (code : option Z) (data : option string) : M unit :=
  c <- this ;;
  if is_open c then ws_close code data else ret tt.

Definition helloPayload (c : Client) : Value :=
  VObj [ ("type", VStr "hello");
         ("auth", VObj [ ("headers", VObj [ ("authorization", VStr (authorization c)) ]) ]);
         ("id", VStr (clientId c));
         ("version", VStr "2") ].

Definition _sayHello : M unit :=
  c <- this ;;
  sendObject (helloPayload c).

Definition pingResponsePayload (c : Client) : Value :=
  VObj [ ("id", VStr (clientId c)); ("type", VStr "ping") ].

Definition _respondToHeartbeatPing : M unit :=
  c <- this ;;
  sendObject (pingResponsePayload c).

(** [JSON.parse(data)] *)
Definition parse (data : string) : M Value :=
  match JSON_parse data with
  | Some v => ret v
  | None => throw SyntaxError
  end.

(** [const { type, message, payload } = dataObj]: throws on [null] and
    [undefined]. *)
Definition destructure (dataObj : Value) : M (Value * Value * Value) :=
  match dataObj with
  | VUndefined | VNull => throw TypeError
  | _ => ret (Get dataObj "type", Get dataObj "message", Get dataObj "payload")
  end.

(** [payload && payload.error] as a condition. *)
Definition carries_error (payload : Value) : bool :=
  ToBoolean payload && ToBoolean (Get payload "error").

(** The [switch (type)] of [_messageHandler]. *)
Definition dispatch (data : string) (type message : Value) : M unit :=
  match type with
  | VStr s =>
      if s =? "hello" then
        c <- this ;; subscribeToTopic (deviceId c) (topic c)
      else if s =? "sub" then ret tt
      else if s =? "ping" then _respondToHeartbeatPing
      else if s =? "pub" then invoke OnPubMessage (AValue message)
      else invoke OnUnexpectedMessage (ARaw data)
  | _ => invoke OnUnexpectedMessage (ARaw data)
  end.

Definition _messageHandler (data : string) : M unit :=
  try_catch
    (dataObj <- parse data ;;
     tmp <- destructure dataObj ;;
     let '(type, message, payload) := tmp in
     if carries_error payload then invoke OnError (ARaw data)
     else dispatch data type message)
    (fun error => invoke OnError (AError error)).

(** ** Events *)

(** What happens to a client: the transport reports an event to one of the
    four listeners, or the caller calls a public method. *)
Inductive Event : Type :=
| EvOpen
| EvMessage (data : string)
| EvError (detail : string)
| EvClose (code : Z) (reason : string)
| CallSubscribeToTopic (deviceId : string) (topic : string16)
| CallSend (dataString : string)
| CallSendObject (dataObj : Value)
| CallClose (code : option Z) (data : option string).

(** The listeners installed by [_initializeWebSocketClient]
    ([onopen = _sayHello], [onmessage = _messageHandler],
    [onerror = errorHandler], [onclose = closeHandler]) and the public
    methods. *)
Definition deliver (ev : Event) : M unit :=
  match ev with
  | EvOpen => ws_set_readyState OPEN ;;; _sayHello
  | EvMessage data => _messageHandler data
  | EvError detail => invoke OnError (AErrorEvent detail)
  | EvClose code reason =>
      ws_set_readyState CLOSED ;;; invoke OnClose (ACloseEvent code reason)
  | CallSubscribeToTopic deviceId topic => subscribeToTopic deviceId topic
  | CallSend dataString => send dataString
  | CallSendObject dataObj => sendObject dataObj
  | CallClose code data => close code data
  end.

(** An exception that leaves a listener or a method ends that call only. *)
Definition escaped (r : unit + Exn) : list Effect :=
  match r with
  | inl _ => []
  | inr e => [Uncaught e]
  end.

Fixpoint run (events : list Event) (c : Client) : list Effect * Client :=
  match events with
  | [] => ([], c)
  | ev :: rest =>
      let o := deliver ev c in
      let '(l, c') := run rest (state o) in
      ((log o ++ escaped (result o) ++ l)%list, c')
  end.

Definition effects_of (events : list Event) (c : Client) : list Effect :=
  fst (run events c).

Definition client_after (events : list Event) (c : Client) : Client :=
  snd (run events c).

End Client.

(** ** Observations on a log *)

Definition is_invoke (h : Slot) (e : Effect) : bool :=
  match e, h with
  | Invoke OnPubMessage _, OnPubMessage
  | Invoke OnError _, OnError
  | Invoke OnClose _, OnClose
  | Invoke OnUnexpectedMessage _, OnUnexpectedMessage => true
  | _, _ => false
  end.


Definition is_ws_close (e : Effect) : bool :=
  match e with
  | WsClose _ _ => true
  | _ => false
  end.

Definition count (p : Effect -> bool) (l : list Effect) : nat :=
  length (filter p l).

(** The calls of handlers in a log, in order. *)
Definition handler_calls (l : list Effect) : list Effect :=
  filter (fun e => match e with Invoke _ _ => true | _ => false end) l.

(** The frames handed to the socket, in order. *)
Fixpoint sent (l : list Effect) : list string :=
  match l with
  | [] => []
  | WsSend data :: rest => data :: sent rest
  | _ :: rest => sent rest
  end.

(** ** The transition table of the specification *)

(** The phases and the transition table as section 4.1 of the specification
    words them.  The source keeps no phase: this machine runs beside the
    client, on the same events, so that statements worded with phases can be
    compared with what the code does. *)
Module SpecTable.

Inductive Phase : Type :=
| CONNECTING
| AWAITING_HELLO_ACK
| SUBSCRIBING
| ACTIVE
| CLOSED.

Inductive FrameType : Type :=
| hello
| sub
| ping
| pub
| other.

Inductive Trigger : Type :=
| TransportOpen
| Frame (type : FrameType) (error : bool)
| DecodeFailure
| TransportError
| TransportClosed
| CloseRequested
| CallerSend.

Definition next (p : Phase) (t : Trigger) : Phase :=
  match p, t with
  | CLOSED, _ => CLOSED
  | _, TransportClosed | _, CloseRequested => CLOSED
  | CONNECTING, TransportOpen => AWAITING_HELLO_ACK
  | AWAITING_HELLO_ACK, Frame hello false => SUBSCRIBING
  | SUBSCRIBING, Frame sub false => ACTIVE
  | _, _ => p
  end.

(** The phases in which the table has seen the transport open and no
    closure yet. *)
Definition transport_open (p : Phase) : bool :=
  match p with
  | AWAITING_HELLO_ACK | SUBSCRIBING | ACTIVE => true
  | CONNECTING | CLOSED => false
  end.

End SpecTable.

Section Classification.

Context {platform : Platform}.

(** The [type] enumeration of an inbound frame. *)
Definition frame_type (type : Value) : SpecTable.FrameType :=
  match type with
  | VStr s =>
      if s =? "hello" then SpecTable.hello
      else if s =? "sub" then SpecTable.sub
      else if s =? "ping" then SpecTable.ping
      else if s =? "pub" then SpecTable.pub
      else SpecTable.other
  | _ => SpecTable.other
  end.

(** The trigger of the table that an event is. *)
Definition classify (ev : Event) : SpecTable.Trigger :=
  match ev with
  | EvOpen => SpecTable.TransportOpen
  | EvMessage data =>
      match JSON_parse data with
      | None | Some VNull | Some VUndefined => SpecTable.DecodeFailure
      | Some v =>
          SpecTable.Frame (frame_type (Get v "type"))
                          (carries_error (Get v "payload"))
      end
  | EvError _ => SpecTable.TransportError
  | EvClose _ _ => SpecTable.TransportClosed
  | CallClose _ _ => SpecTable.CloseRequested
  | CallSubscribeToTopic _ _ | CallSend _ | CallSendObject _ =>
      SpecTable.CallerSend
  end.

Definition phase_from (p : SpecTable.Phase) (events : list Event)
  : SpecTable.Phase :=
  fold_left (fun q ev => SpecTable.next q (classify ev)) events p.

(** The phase of the table after [events] on a new connection. *)
Definition phase_after (events : list Event) : SpecTable.Phase :=
  phase_from SpecTable.CONNECTING events.

(** An inbound text that decodes to a frame of the given type without a
    truthy [payload.error]. *)
Definition clean_frame (type : string) (data : string) (v : Value) : Prop :=
  JSON_parse data = Some v /\
  Get v "type" = VStr type /\
  carries_error (Get v "payload") = false.

End Classification.

(** The socket of the client against the phase of the table: while the table
    is connecting the socket is not open, and while the table is between the
    open event and the closure the socket is open. *)
Definition tracks (p : SpecTable.Phase) (c : Client) : Prop :=
  wsClient c <> None /\
  (p = SpecTable.CONNECTING -> is_open c = false) /\
  (SpecTable.transport_open p = true -> is_open c = true).

(** ** A platform to run the client on *)

(** An instance of [Platform] for running the client on concrete frames:
    base64 as RFC 4648 defines it, a JSON encoder, a decoder that knows the
    texts of a fixed list of frames and rejects every other text, and the
    exact radix-36 expansion of a fraction. *)
Module Sample.

Definition base64_char (n : N) : ascii :=
  if (n <? 26)%N then ascii_of_N (65 + n)
  else if (n <? 52)%N then ascii_of_N (71 + n)
  else if (n <? 62)%N then ascii_of_N (n - 4)
  else if (n =? 62)%N then "+"%char
  else "/"%char.

Fixpoint base64 (s : string) : string :=
  match s with
  | EmptyString => ""
  | String a EmptyString =>
      let n := N_of_ascii a in
      String (base64_char (n / 4))
        (String (base64_char ((n mod 4) * 16)) "==")
  | String a (String b EmptyString) =>
      let n := (N_of_ascii a * 256 + N_of_ascii b)%N in
      String (base64_char (n / 1024))
        (String (base64_char ((n / 16) mod 64))
           (String (base64_char ((n mod 16) * 4)) "="))
  | String a (String b (String c rest)) =>
      let n := (N_of_ascii a * 65536 + N_of_ascii b * 256 + N_of_ascii c)%N in
      String (base64_char (n / 262144))
        (String (base64_char ((n / 4096) mod 64))
           (String (base64_char ((n / 64) mod 64))
              (String (base64_char (n mod 64)) (base64 rest))))
  end.

(** The code units of a string of code units below 256, and back. *)
Definition units (s : string) : string16 :=
  map N_of_ascii (list_ascii_of_string s).

Fixpoint latin1 (t : string16) : option string :=
  match t with
  | [] => Some ""
  | u :: rest =>
      if (u <? 256)%N
      then option_map (String (ascii_of_N u)) (latin1 rest)
      else None
  end.


(** [btoa] of the browser (and of node's global): the base64 of the code
    units when all are below 256, an [InvalidCharacterError] otherwise. *)
Definition browser_btoa (t : string16) : string + Exn :=
  match latin1 t with
  | Some s => inl (base64 s)
  | None => inr InvalidCharacterError
  end.


Definition hex_digit (n : N) : ascii :=
  if (n <? 10)%N then ascii_of_N (48 + n) else ascii_of_N (87 + n).

Definition double_quote : ascii := ascii_of_N 34.
Definition backslash : ascii := ascii_of_N 92.

Fixpoint escape (s : string) : string :=
  match s with
  | EmptyString => ""
  | String a rest =>
      let n := N_of_ascii a in
      (if (n =? 34)%N then String backslash (String double_quote "")
       else if (n =? 92)%N then String backslash (String backslash "")
       else if (n <? 32)%N then
         String backslash
           ("u00" ++ String (hex_digit (n / 16)) (String (hex_digit (n mod 16)) ""))
       else String a "") ++ escape rest
  end.

Definition quote (s : string) : string :=
  String double_quote (escape s ++ String double_quote "").

Fixpoint decimal_digits (fuel : nat) (n : N) (acc : string) : string :=
  match fuel with
  | O => acc
  | S fuel' =>
      let acc' := String (ascii_of_N (48 + n mod 10)) acc in
      if (n / 10 =? 0)%N then acc' else decimal_digits fuel' (n / 10) acc'
  end.

Definition decimal (n : N) : string :=
  decimal_digits (S (N.to_nat (N.log2 n))) n "".

(** The digits after the point of [f / 2^k] (with [f < 2^k]) in the given
    radix, exactly; the expansion ends within [k] digits for an even radix. *)
Fixpoint fraction_digits (radix : N) (fuel : nat) (f : N) (k : N) : string :=
  match fuel with
  | O => ""
  | S fuel' =>
      if (f =? 0)%N then ""
      else
        let f' := (f * radix)%N in
        String (digit36 (N.shiftr f' k))
               (fraction_digits radix fuel' (N.land f' (N.ones k)) k)
  end.

(** The fraction of [m * 2^e] in the given radix, with its point. *)
Definition fraction_text (radix : N) (m : positive) (e : Z) : string :=
  match e with
  | Zneg p =>
      if has_fraction m e
      then "." ++ fraction_digits radix (Pos.to_nat p)
                    (N.land (Npos m) (N.ones (Npos p))) (Npos p)
      else ""
  | _ => ""
  end.

(** A number as JSON text: its exact decimal expansion, which decodes to the
    same number ([JSON.stringify] itself prints the shortest such text). *)
Definition encode_number (x : spec_float) : string :=
  match x with
  | S754_nan | S754_infinity _ => "null"
  | S754_zero _ => "0"
  | S754_finite s m e =>
      (if s then "-" else "") ++ decimal (integer_part m e) ++ fraction_text 10 m e
  end.

Definition is_undefined (v : Value) : bool :=
  match v with
  | VUndefined => true
  | _ => false
  end.

(** A BigInt has no encoding, and [sendObject] asks for none. *)
Fixpoint encode (v : Value) : string :=
  match v with
  | VUndefined | VNull | VBigInt _ => "null"
  | VBool b => if b then "true" else "false"
  | VNum x => encode_number x
  | VStr s => quote s
  | VArr items => "[" ++ String.concat "," (map encode items) ++ "]"
  | VObj fields =>
      "{" ++
      String.concat ","
        (flat_map
           (fun '(k, x) =>
              if is_undefined x then [] else [quote k ++ ":" ++ encode x])
           fields) ++
      "}"
  end.

Definition stringify (v : Value) : string :=
  match v with
  | VUndefined => "undefined"
  | _ => encode v
  end.

(** The double of a small natural number. *)
Definition number (n : positive) : Value := VNum (S754_finite false n 0).

Definition message1 : Value :=
  VObj [ ("createdAt", number 1); ("topic", VStr "/t"); ("data", VStr "x") ].

Definition hello_ack : Value := VObj [ ("type", VStr "hello") ].
Definition sub_ack : Value := VObj [ ("type", VStr "sub") ].
Definition ping_frame : Value := VObj [ ("type", VStr "ping") ].
Definition pub_frame : Value :=
  VObj [ ("type", VStr "pub"); ("message", message1) ].
Definition failed_ping : Value :=
  VObj [ ("type", VStr "ping"); ("payload", VObj [ ("error", VStr "Unauthorized") ]) ].
Definition failed_hello : Value :=
  VObj [ ("type", VStr "hello"); ("payload", VObj [ ("error", VStr "Unauthorized") ]) ].

Definition known_frames : list Value :=
  [ hello_ack; sub_ack; ping_frame; pub_frame; failed_ping; failed_hello ].

Definition parse (data : string) : option Value :=
  find (fun v => encode v =? data) known_frames.

(** The exact radix-36 expansion of the fraction of a number. *)
Definition exact_fraction_digits36 (x : spec_float) : string :=
  match x with
  | S754_finite _ m e => substring_from 1 (fraction_text 36 m e)
  | _ => ""
  end.

Definition platform : Platform :=
  {| fraction_digits36 := exact_fraction_digits36;
     JSON_parse := parse;
     JSON_stringify := stringify;
     btoa := browser_btoa |}.


(** Two values that [Math.random()] can return: a half, and 699051 / 2^20,
    whose sum with 1 has ten digits after the point in radix 36. *)
Definition half : spec_float := binary_normalize 53 1024 1 (-1) false.
Definition random : spec_float := binary_normalize 53 1024 699051 (-20) false.

Definition handlers : HandlerOptions :=
  {| opt_pubMessageHandler := None;
     opt_errorHandler := None;
     opt_closeHandler := None;
     opt_unexpectedMessageHandler := None |}.

(** The events of a handshake. *)
Definition handshake : list Event :=
  [ EvOpen; EvMessage (encode hello_ack); EvMessage (encode sub_ack) ].

(** A new client, as [new NetFieldProxyWebSocketClient("wss://x", "secret",
    "D1", "/t", {})] builds it when [Math.random()] returns [random]. *)
Definition client : Client :=
  constructor (platform := platform) random "wss://x" "secret" "D1" (units "/t")
    handlers.

(** The topic "/t" followed by the euro sign, U+20AC, and a client for it. *)
Definition euro_topic : string16 := (units "/t" ++ [8364%N])%list.

Definition euro_client : Client :=
  constructor (platform := platform) random "wss://x" "secret" "D1" euro_topic
    handlers.

End Sample.

(** ** More observations and frames *)

Definition is_uncaught (e : Effect) : bool :=
  match e with
  | Uncaught _ => true
  | _ => false
  end.

(** The events that the transport reports, as against the calls of the
    caller. *)
Definition from_transport (ev : Event) : bool :=
  match ev with
  | EvOpen | EvMessage _ | EvError _ | EvClose _ _ => true
  | _ => false
  end.

Definition is_open_event (ev : Event) : bool :=
  match ev with
  | EvOpen => true
  | _ => false
  end.

Section Encodable.

Context {platform : Platform}.

(** Whether the encoder that a call of the caller runs first, if any, returns:
    [JSON.stringify] for [sendObject], [btoa] for [subscribeToTopic]. *)
Definition encodable (ev : Event) : bool :=
  match ev with
  | CallSendObject dataObj => serializable dataObj
  | CallSubscribeToTopic _ topic =>
      match btoa topic with
      | inl _ => true
      | inr _ => false
      end
  | _ => true
  end.

End Encodable.

(** The sample platform with a decoder that also knows frames off the
    protocol, and a client whose error handler throws. *)
Module Edge.

Definition welcome : Value := VObj [ ("type", VStr "welcome") ].
Definition untyped : Value := VObj [ ("message", VStr "x") ].
Definition five : Value := Sample.number 5.

Definition known_frames : list Value :=
  (Sample.known_frames ++ [ VNull; welcome; untyped; five ])%list.

Definition parse (data : string) : option Value :=
  find (fun v => Sample.encode v =? data) known_frames.

Definition platform : Platform :=
  {| fraction_digits36 := Sample.exact_fraction_digits36;
     JSON_parse := parse;
     JSON_stringify := Sample.stringify;
     btoa := Sample.browser_btoa |}.

Definition failure : Exn := Thrown (VStr "handler failed").

Definition handlers : HandlerOptions :=
  {| opt_pubMessageHandler := None;
     opt_errorHandler := Some (fun _ => Some failure);
     opt_closeHandler := None;
     opt_unexpectedMessageHandler := None |}.

Definition client : Client :=
  constructor (platform := platform) Sample.random "wss://x" "secret" "D1"
    (Sample.units "/t") handlers.

End Edge.

(** * Properties *)

Section Properties.

Context {platform : Platform}.

(** ** The send guard *)

Lemma send_not_open (dataString : string) (c : Client) :
  is_open c = false -> send dataString c = nothing c.
Proof.
  intros Hc. unfold send, bind, this. simpl. rewrite Hc. reflexivity.
Qed.

Lemma send_open (dataString : string) (c : Client) :
  is_open c = true ->
  send dataString c =
    {| log := [WsSend dataString]; state := c; result := inl tt |}.
Proof.
  intros Hc. unfold send, bind, this. simpl. rewrite Hc. reflexivity.
Qed.

Lemma send_state (dataString : string) (c : Client) :
  state (send dataString c) = c.
Proof.
  destruct (is_open c) eqn:Hc.
  - rewrite send_open by assumption. reflexivity.
  - rewrite send_not_open by assumption. reflexivity.
Qed.

Lemma sendObject_eq (dataObj : Value) (c : Client) :
  serializable dataObj = true ->
  sendObject dataObj c = send (JSON_stringify dataObj) c.
Proof. intros H. unfold sendObject. rewrite H. reflexivity. Qed.

Lemma sendObject_throws (dataObj : Value) (c : Client) :
  serializable dataObj = false -> sendObject dataObj c = throw TypeError c.
Proof. intros H. unfold sendObject. rewrite H. reflexivity. Qed.

Lemma bind_this_send (k : Client -> Value) (c : Client) :
  serializable (k c) = true ->
  bind this (fun c' => sendObject (k c')) c = send (JSON_stringify (k c)) c.
Proof.
  intros H. unfold bind, this. cbn [result state log app].
  rewrite (sendObject_eq _ _ H).
  destruct (send (JSON_stringify (k c)) c) as [l s r]. reflexivity.
Qed.

Lemma subscribeToTopic_eq (d : string) (t : string16) (b : string) (c : Client) :
  btoa t = inl b ->
  subscribeToTopic d t c = send (JSON_stringify (subscribePayload c d b)) c.
Proof.
  intros H. unfold subscribeToTopic. rewrite H.
  apply (bind_this_send (fun c' => subscribePayload c' d b)). reflexivity.
Qed.

Lemma subscribeToTopic_throws (d : string) (t : string16) (e : Exn) (c : Client) :
  btoa t = inr e -> subscribeToTopic d t c = throw e c.
Proof. intros H. unfold subscribeToTopic. rewrite H. reflexivity. Qed.

Lemma _sayHello_eq (c : Client) :
  _sayHello c = send (JSON_stringify (helloPayload c)) c.
Proof. apply (bind_this_send helloPayload). reflexivity. Qed.

Lemma _respondToHeartbeatPing_eq (c : Client) :
  _respondToHeartbeatPing c = send (JSON_stringify (pingResponsePayload c)) c.
Proof. apply (bind_this_send pingResponsePayload). reflexivity. Qed.

(** ** Calling a handler *)

Lemma invoke_eq (h : Slot) (a : Arg) (c : Client) :
  invoke h a c =
    {| log := [Invoke h a];
       state := c;
       result := match handler_of c h a with
                 | None => inl tt
                 | Some e => inr e
                 end |}.
Proof.
  unfold invoke, bind, this, emit. simpl.
  destruct (handler_of c h a); reflexivity.
Qed.

(** ** The message handler, frame by frame *)

Lemma bind_ret {A B : Type} (a : A) (k : A -> M B) (c : Client) :
  bind (ret a) k c = k a c.
Proof.
  unfold bind, ret. simpl. destruct (k a c); reflexivity.
Qed.

Lemma bind_throw {A B : Type} (e : Exn) (k : A -> M B) (c : Client) :
  bind (throw e) k c = throw e c.
Proof. reflexivity. Qed.

Lemma bind_this {B : Type} (k : Client -> M B) (c : Client) :
  bind this k c = k c c.
Proof.
  unfold bind, this. simpl. destruct (k c c); reflexivity.
Qed.

Lemma bind_ws_set_readyState {B : Type} (s : ReadyState) (k : unit -> M B)
    (c : Client) :
  bind (ws_set_readyState s) k c = k tt (set_readyState s c).
Proof.
  unfold bind, ws_set_readyState. cbn [result state log app].
  destruct (k tt (set_readyState s c)); reflexivity.
Qed.

Lemma try_catch_ext {A : Type} (m m' : M A) (k : Exn -> M A) (c : Client) :
  m c = m' c -> try_catch m k c = try_catch m' k c.
Proof.
  intros H. unfold try_catch. rewrite H. reflexivity.
Qed.

Lemma try_catch_throw {A : Type} (e : Exn) (k : Exn -> M A) (c : Client) :
  try_catch (throw e) k c = k e c.
Proof.
  unfold try_catch, throw. cbn [result log state app].
  destruct (k e c); reflexivity.
Qed.

Lemma destructure_object (v : Value) :
  v <> VNull -> v <> VUndefined ->
  destructure v = ret (Get v "type", Get v "message", Get v "payload").
Proof.
  intros Hn Hu. destruct v; try contradiction; reflexivity.
Qed.

(** After a successful decode the handler is the error test followed by the
    [switch], inside the [try]. *)
Lemma _messageHandler_decoded (data : string) (v : Value) (c : Client) :
  JSON_parse data = Some v ->
  v <> VNull -> v <> VUndefined ->
  _messageHandler data c =
    try_catch
      (if carries_error (Get v "payload") then invoke OnError (ARaw data)
       else dispatch data (Get v "type") (Get v "message"))
      (fun error => invoke OnError (AError error)) c.
Proof.
  intros Hparse Hnull Hundef.
  unfold _messageHandler. apply try_catch_ext.
  unfold parse. rewrite Hparse, bind_ret.
  rewrite (destructure_object v Hnull Hundef), bind_ret.
  reflexivity.
Qed.

(** A text that does not decode, or decodes to [null], reaches the error
    handler with the exception. *)
Lemma _messageHandler_undecoded (data : string) (c : Client) :
  JSON_parse data = None \/ JSON_parse data = Some VNull \/
  JSON_parse data = Some VUndefined ->
  exists e, _messageHandler data c = invoke OnError (AError e) c.
Proof.
  intros [H | [H | H]]; unfold _messageHandler, parse; rewrite H.
  - exists SyntaxError.
    rewrite (try_catch_ext _ (throw SyntaxError)) by apply bind_throw.
    rewrite try_catch_throw. reflexivity.
  - exists TypeError.
    rewrite (try_catch_ext _ (throw TypeError)) by (rewrite bind_ret; apply bind_throw).
    rewrite try_catch_throw. reflexivity.
  - exists TypeError.
    rewrite (try_catch_ext _ (throw TypeError)) by (rewrite bind_ret; apply bind_throw).
    rewrite try_catch_throw. reflexivity.
Qed.

Lemma clean_frame_object (type data : string) (v : Value) :
  clean_frame type data v -> v <> VNull /\ v <> VUndefined.
Proof.
  intros (_ & Htype & _). split; intros ->; discriminate Htype.
Qed.

Lemma dispatch_hello_eq (data : string) (message : Value) (c : Client) :
  dispatch data (VStr "hello") message c =
    subscribeToTopic (deviceId c) (topic c) c.
Proof.
  unfold dispatch. cbn [String.eqb Ascii.eqb Bool.eqb].
  exact (bind_this (fun c' => subscribeToTopic (deviceId c') (topic c')) c).
Qed.

Lemma subscribeToTopic_state (d : string) (t : string16) (c : Client) :
  state (subscribeToTopic d t c) = c.
Proof.
  destruct (btoa t) as [b|e] eqn:Hb.
  - rewrite (subscribeToTopic_eq _ _ _ _ Hb). apply send_state.
  - rewrite (subscribeToTopic_throws _ _ _ _ Hb). reflexivity.
Qed.

Lemma sendObject_state (dataObj : Value) (c : Client) :
  state (sendObject dataObj c) = c.
Proof.
  destruct (serializable dataObj) eqn:Hs.
  - rewrite (sendObject_eq _ _ Hs). apply send_state.
  - rewrite (sendObject_throws _ _ Hs). reflexivity.
Qed.

Lemma dispatch_state (data : string) (type message : Value) (c : Client) :
  state (dispatch data type message c) = c.
Proof.
  unfold dispatch. destruct type; try (rewrite invoke_eq; reflexivity).
  repeat match goal with
         | |- context [if ?b then _ else _] => destruct b
         end;
    try (rewrite invoke_eq; reflexivity); try reflexivity.
  - rewrite bind_this. apply subscribeToTopic_state.
  - rewrite _respondToHeartbeatPing_eq. apply send_state.
Qed.

Lemma try_catch_invoke_state (m : M unit) (c : Client) :
  state (m c) = c ->
  state (try_catch m (fun error => invoke OnError (AError error)) c) = c.
Proof.
  intros Hm. unfold try_catch. destruct (m c) as [l s r].
  cbn [state result log] in *. destruct r; cbn [state]; [assumption|].
  rewrite invoke_eq. assumption.
Qed.

Lemma decoded_cases (o : option Value) :
  (o = None \/ o = Some VNull \/ o = Some VUndefined) \/
  (exists v, o = Some v /\ v <> VNull /\ v <> VUndefined).
Proof.
  destruct o as [v|]; [|auto].
  destruct v; auto; right; eexists; (split; [reflexivity|]); split; discriminate.
Qed.

Lemma _messageHandler_state (data : string) (c : Client) :
  state (_messageHandler data c) = c.
Proof.
  destruct (decoded_cases (JSON_parse data)) as [H | (v & Hparse & Hn & Hu)].
  - destruct (_messageHandler_undecoded data c H) as [e ->].
    rewrite invoke_eq. reflexivity.
  - rewrite (_messageHandler_decoded data v c Hparse Hn Hu).
    apply try_catch_invoke_state.
    destruct (carries_error (Get v "payload")).
    + rewrite invoke_eq. reflexivity.
    + apply dispatch_state.
Qed.

Lemma try_catch_invoke (h : Slot) (a : Arg) (c : Client) :
  try_catch (invoke h a) (fun error => invoke OnError (AError error)) c =
    {| log := Invoke h a :: after_throw c h a;
       state := c;
       result := match handler_of c h a with
                 | None => inl tt
                 | Some e =>
                     match errorHandler c (AError e) with
                     | None => inl tt
                     | Some e' => inr e'
                     end
                 end |}.
Proof.
  unfold try_catch, after_throw. rewrite invoke_eq. cbn [result log state].
  destruct (handler_of c h a) as [e|]; [|reflexivity].
  rewrite invoke_eq. reflexivity.
Qed.

Lemma try_catch_send (dataString : string) (k : Exn -> M unit) (c : Client) :
  try_catch (send dataString) k c = send dataString c.
Proof.
  unfold try_catch.
  destruct (is_open c) eqn:Hc.
  - rewrite send_open by assumption. reflexivity.
  - rewrite send_not_open by assumption. reflexivity.
Qed.

Lemma carries_error_object (v : Value) :
  carries_error (Get v "payload") = true -> v <> VNull /\ v <> VUndefined.
Proof.
  intros H. split; intros ->; discriminate H.
Qed.

Lemma next_error_frame (type : SpecTable.FrameType) (p : SpecTable.Phase) :
  SpecTable.next p (SpecTable.Frame type true) = p.
Proof. destruct p, type; reflexivity. Qed.

Lemma _messageHandler_pub (data : string) (v : Value) (c : Client) :
  clean_frame "pub" data v ->
  _messageHandler data c =
    try_catch (invoke OnPubMessage (AValue (Get v "message")))
              (fun error => invoke OnError (AError error)) c.
Proof.
  intros Hframe.
  destruct (clean_frame_object _ _ _ Hframe) as [Hn Hu].
  destruct Hframe as (Hparse & Htype & Herr).
  rewrite (_messageHandler_decoded data v c Hparse Hn Hu), Herr, Htype.
  reflexivity.
Qed.

Lemma count_pub_once (a : Arg) (c : Client) :
  count (is_invoke OnPubMessage)
        (Invoke OnPubMessage a :: after_throw c OnPubMessage a) = 1.
Proof.
  unfold after_throw. destruct (handler_of c OnPubMessage a); reflexivity.
Qed.

Lemma sent_after_throw (h : Slot) (a : Arg) (c : Client) :
  sent (Invoke h a :: after_throw c h a) = [].
Proof.
  unfold after_throw. destruct (handler_of c h a); reflexivity.
Qed.

(** A [hello] acknowledgement inside the [try]: the [sub] frame goes to the
    send guard, or what [btoa] throws goes to the error handler. *)
Lemma try_catch_subscribeToTopic (d : string) (t : string16) (c : Client) :
  try_catch (subscribeToTopic d t)
            (fun error => invoke OnError (AError error)) c =
    match btoa t with
    | inl b => send (JSON_stringify (subscribePayload c d b)) c
    | inr e => invoke OnError (AError e) c
    end.
Proof.
  destruct (btoa t) as [b|e] eqn:Hb.
  - rewrite (try_catch_ext _ _ _ _ (subscribeToTopic_eq d t b c Hb)).
    apply try_catch_send.
  - rewrite (try_catch_ext _ _ _ _ (subscribeToTopic_throws d t e c Hb)).
    rewrite try_catch_throw. reflexivity.
Qed.

(** The [switch] inside the [try] is one of five things. *)
Lemma dispatch_cases (data : string) (type message : Value) (c : Client) :
  let k := fun error => invoke OnError (AError error) in
  let o := try_catch (dispatch data type message) k c in
  o = try_catch (subscribeToTopic (deviceId c) (topic c)) k c \/
  o = nothing c \/
  o = send (JSON_stringify (pingResponsePayload c)) c \/
  exists h a, o = try_catch (invoke h a) k c.
Proof.
  intros k o. unfold o, dispatch.
  destruct type; try (right; right; right; eexists _, _; reflexivity).
  destruct (s =? "hello").
  { left. apply try_catch_ext.
    exact (bind_this (fun c' => subscribeToTopic (deviceId c') (topic c')) c). }
  destruct (s =? "sub"); [right; left; reflexivity|].
  destruct (s =? "ping").
  { right; right; left.
    rewrite (try_catch_ext _ _ _ _ (_respondToHeartbeatPing_eq c)).
    apply try_catch_send. }
  destruct (s =? "pub"); right; right; right; eexists _, _; reflexivity.
Qed.

(** While the socket is not open, no inbound frame makes the client send. *)
Lemma sent_not_open (data : string) (c : Client) :
  is_open c = false -> sent (log (_messageHandler data c)) = [].
Proof.
  intros Hc.
  destruct (decoded_cases (JSON_parse data)) as [H | (v & Hparse & Hn & Hu)].
  - destruct (_messageHandler_undecoded data c H) as [e ->].
    rewrite invoke_eq. reflexivity.
  - rewrite (_messageHandler_decoded data v c Hparse Hn Hu).
    destruct (carries_error (Get v "payload")).
    + rewrite try_catch_invoke. apply sent_after_throw.
    + destruct (dispatch_cases data (Get v "type") (Get v "message") c)
        as [-> | [-> | [-> | (h & a & ->)]]].
      * rewrite try_catch_subscribeToTopic. destruct (btoa (topic c)).
        -- rewrite send_not_open by assumption. reflexivity.
        -- rewrite invoke_eq. reflexivity.
      * reflexivity.
      * rewrite send_not_open by assumption. reflexivity.
      * rewrite try_catch_invoke. apply sent_after_throw.
Qed.

(** The log of the handler in closed form: it depends on the client through
    its handlers, its identity and whether its socket is open. *)
Lemma _messageHandler_log (data : string) (c : Client) :
  log (_messageHandler data c) =
    match JSON_parse data with
    | None => [Invoke OnError (AError SyntaxError)]
    | Some VNull | Some VUndefined => [Invoke OnError (AError TypeError)]
    | Some v =>
        if carries_error (Get v "payload")
        then Invoke OnError (ARaw data) :: after_throw c OnError (ARaw data)
        else
          match Get v "type" with
          | VStr s =>
              if s =? "hello" then
                match btoa (topic c) with
                | inl b =>
                    if is_open c
                    then [WsSend (JSON_stringify
                                    (subscribePayload c (deviceId c) b))]
                    else []
                | inr e => [Invoke OnError (AError e)]
                end
              else if s =? "sub" then []
              else if s =? "ping" then
                if is_open c
                then [WsSend (JSON_stringify (pingResponsePayload c))]
                else []
              else if s =? "pub" then
                Invoke OnPubMessage (AValue (Get v "message")) ::
                after_throw c OnPubMessage (AValue (Get v "message"))
              else
                Invoke OnUnexpectedMessage (ARaw data) ::
                after_throw c OnUnexpectedMessage (ARaw data)
          | _ =>
              Invoke OnUnexpectedMessage (ARaw data) ::
              after_throw c OnUnexpectedMessage (ARaw data)
          end
    end.
Proof.
  assert (Hsend : forall dataString,
             log (send dataString c) =
             if is_open c then [WsSend dataString] else []).
  { intros dataString. destruct (is_open c) eqn:Hc.
    - rewrite send_open by assumption. reflexivity.
    - rewrite send_not_open by assumption. reflexivity. }
  destruct (JSON_parse data) as [v|] eqn:Hparse.
  2: { unfold _messageHandler, parse. rewrite Hparse.
       rewrite (try_catch_ext _ (throw SyntaxError)) by apply bind_throw.
       rewrite try_catch_throw, invoke_eq. reflexivity. }
  assert (Hv : (v = VNull \/ v = VUndefined) \/ (v <> VNull /\ v <> VUndefined)).
  { destruct v; auto; right; split; discriminate. }
  destruct Hv as [Hv | [Hn Hu]].
  { unfold _messageHandler, parse. rewrite Hparse.
    rewrite (try_catch_ext _ (throw TypeError))
      by (rewrite bind_ret; destruct Hv as [-> | ->]; apply bind_throw).
    rewrite try_catch_throw, invoke_eq.
    destruct Hv as [-> | ->]; reflexivity. }
  rewrite (_messageHandler_decoded data v c Hparse Hn Hu).
  assert (Hbody :
    log (try_catch
           (if carries_error (Get v "payload") then invoke OnError (ARaw data)
            else dispatch data (Get v "type") (Get v "message"))
           (fun error => invoke OnError (AError error)) c) =
    if carries_error (Get v "payload")
    then Invoke OnError (ARaw data) :: after_throw c OnError (ARaw data)
    else
      match Get v "type" with
      | VStr s =>
          if s =? "hello" then
            match btoa (topic c) with
            | inl b =>
                if is_open c
                then [WsSend (JSON_stringify
                                (subscribePayload c (deviceId c) b))]
                else []
            | inr e => [Invoke OnError (AError e)]
            end
          else if s =? "sub" then []
          else if s =? "ping" then
            if is_open c
            then [WsSend (JSON_stringify (pingResponsePayload c))]
            else []
          else if s =? "pub" then
            Invoke OnPubMessage (AValue (Get v "message")) ::
            after_throw c OnPubMessage (AValue (Get v "message"))
          else
            Invoke OnUnexpectedMessage (ARaw data) ::
            after_throw c OnUnexpectedMessage (ARaw data)
      | _ =>
          Invoke OnUnexpectedMessage (ARaw data) ::
          after_throw c OnUnexpectedMessage (ARaw data)
      end).
  { destruct (carries_error (Get v "payload")).
    { rewrite try_catch_invoke. reflexivity. }
    unfold dispatch.
    destruct (Get v "type"); try (rewrite try_catch_invoke; reflexivity).
    destruct (s =? "hello").
    { rewrite (try_catch_ext _ (subscribeToTopic (deviceId c) (topic c)))
        by exact (bind_this
                    (fun c' => subscribeToTopic (deviceId c') (topic c')) c).
      rewrite try_catch_subscribeToTopic. destruct (btoa (topic c)).
      - apply Hsend.
      - rewrite invoke_eq. reflexivity. }
    destruct (s =? "sub"); [reflexivity|].
    destruct (s =? "ping").
    { rewrite (try_catch_ext _ _ _ _ (_respondToHeartbeatPing_eq c)).
      rewrite try_catch_send. apply Hsend. }
    destruct (s =? "pub"); rewrite try_catch_invoke; reflexivity. }
  rewrite Hbody. destruct v; try contradiction; reflexivity.
Qed.


Lemma handler_calls_after_throw (c : Client) (h : Slot) (a : Arg) :
  handler_calls (Invoke h a :: after_throw c h a) =
  Invoke h a :: after_throw c h a.
Proof.
  unfold after_throw. destruct (handler_of c h a); reflexivity.
Qed.


(** ** Runs *)

Lemma client_after_cons (ev : Event) (rest : list Event) (c : Client) :
  client_after (ev :: rest) c = client_after rest (state (deliver ev c)).
Proof.
  unfold client_after. cbn [run].
  destruct (run rest (state (deliver ev c))). reflexivity.
Qed.

Lemma effects_of_cons (ev : Event) (rest : list Event) (c : Client) :
  effects_of (ev :: rest) c =
    (log (deliver ev c) ++ escaped (result (deliver ev c)) ++
     effects_of rest (state (deliver ev c)))%list.
Proof.
  unfold effects_of. cbn [run].
  destruct (run rest (state (deliver ev c))). reflexivity.
Qed.


(** ** The claims about single frames *)

(** C3: a frame whose decoded payload carries a truthy [payload.error] goes to
    the error handler with the raw frame; every call the handler makes is a
    call of the error handler (a second one only when the first throws), the
    [type] is not dispatched, nothing is sent, the client is unchanged and the
    phase of the table does not move. *)
Theorem error_frames_reach_only_the_error_handler
    (data : string) (v : Value) (c : Client) :
  JSON_parse data = Some v ->
  carries_error (Get v "payload") = true ->
  log (_messageHandler data c) =
    Invoke OnError (ARaw data) :: after_throw c OnError (ARaw data) /\
  Forall (fun e => is_invoke OnError e = true) (log (_messageHandler data c)) /\
  state (_messageHandler data c) = c /\
  (forall p, SpecTable.next p (classify (EvMessage data)) = p).
Proof.
  intros Hparse Herr.
  destruct (carries_error_object v Herr) as [Hn Hu].
  rewrite (_messageHandler_decoded data v c Hparse Hn Hu), Herr.
  rewrite try_catch_invoke. cbn [log state].
  repeat split.
  - constructor; [reflexivity|]. unfold after_throw.
    destruct (handler_of c OnError (ARaw data)); repeat constructor.
  - intros p. cbn [classify]. rewrite Hparse.
    destruct v; try contradiction; rewrite Herr; apply next_error_frame.
Qed.

(** C9: an inbound [pub] frame without an error payload calls the publish
    handler exactly once, with the [message] field of the frame as decoded and
    nothing else; the only other call is the error handler's, when the publish
    handler throws. *)
Theorem pub_message_is_forwarded_verbatim
    (data : string) (v : Value) (c : Client) :
  clean_frame "pub" data v ->
  log (_messageHandler data c) =
    Invoke OnPubMessage (AValue (Get v "message")) ::
    after_throw c OnPubMessage (AValue (Get v "message")) /\
  count (is_invoke OnPubMessage) (log (_messageHandler data c)) = 1 /\
  state (_messageHandler data c) = c.
Proof.
  intros Hframe.
  rewrite (_messageHandler_pub data v c Hframe), try_catch_invoke.
  cbn [log state]. repeat split.
  apply count_pub_once.
Qed.

Lemma _messageHandler_hello (data : string) (v : Value) (c : Client) :
  clean_frame "hello" data v ->
  _messageHandler data c =
    match btoa (topic c) with
    | inl b => send (JSON_stringify (subscribePayload c (deviceId c) b)) c
    | inr e => invoke OnError (AError e) c
    end.
Proof.
  intros Hframe.
  destruct (clean_frame_object _ _ _ Hframe) as [Hn Hu].
  destruct Hframe as (Hparse & Htype & Herr).
  rewrite (_messageHandler_decoded data v c Hparse Hn Hu), Herr, Htype.
  rewrite (try_catch_ext _ _ _ _ (dispatch_hello_eq data _ c)).
  apply try_catch_subscribeToTopic.
Qed.

(** C6, as the code has it: while the transport is not open nothing is handed
    to the socket and nothing is queued, whatever is sent.  The raw [send],
    the [hello] frame and the [ping] response are no-ops; [sendObject] is a
    no-op on a value that [JSON.stringify] encodes, and [subscribeToTopic] and
    the [sub] frame for a [hello] acknowledgement are no-ops on a topic that
    [btoa] encodes.  The encoders run before the guard: on a value that
    [JSON.stringify] refuses [sendObject] throws, on a topic that [btoa]
    refuses [subscribeToTopic] throws, and the [hello] acknowledgement of a
    session with such a topic reaches the error handler. *)
Theorem send_guard (c : Client) :
  is_open c = false ->
  (forall dataString, send dataString c = nothing c) /\
  (forall dataObj,
     serializable dataObj = true -> sendObject dataObj c = nothing c) /\
  (forall deviceId topic b,
     btoa topic = inl b -> subscribeToTopic deviceId topic c = nothing c) /\
  _sayHello c = nothing c /\
  _respondToHeartbeatPing c = nothing c /\
  (forall data v b,
     clean_frame "hello" data v -> btoa (topic c) = inl b ->
     _messageHandler data c = nothing c) /\
  (forall data v, clean_frame "ping" data v -> _messageHandler data c = nothing c) /\
  (forall dataObj,
     serializable dataObj = false ->
     sendObject dataObj c =
       {| log := []; state := c; result := inr TypeError |}) /\
  (forall deviceId topic e,
     btoa topic = inr e ->
     subscribeToTopic deviceId topic c =
       {| log := []; state := c; result := inr e |}) /\
  (forall data v e,
     clean_frame "hello" data v -> btoa (topic c) = inr e ->
     _messageHandler data c = invoke OnError (AError e) c) /\
  (forall dataObj, sent (log (sendObject dataObj c)) = []) /\
  (forall deviceId topic, sent (log (subscribeToTopic deviceId topic c)) = []) /\
  (forall data, sent (log (_messageHandler data c)) = []).
Proof.
  intros Hc.
  assert (Hsend : forall dataString, send dataString c = nothing c)
    by (intros; apply send_not_open; assumption).
  split; [exact Hsend|].
  split; [intros v Hv; rewrite (sendObject_eq _ _ Hv); apply Hsend|].
  split; [intros d t b Hb; rewrite (subscribeToTopic_eq _ _ _ _ Hb); apply Hsend|].
  split; [rewrite _sayHello_eq; apply Hsend|].
  split; [rewrite _respondToHeartbeatPing_eq; apply Hsend|].
  split.
  { intros data v b Hframe Hb.
    rewrite (_messageHandler_hello data v c Hframe), Hb. apply Hsend. }
  split.
  { intros data v Hframe.
    destruct (clean_frame_object _ _ _ Hframe) as [Hn Hu].
    destruct Hframe as (Hparse & Htype & Herr).
    rewrite (_messageHandler_decoded data v c Hparse Hn Hu), Herr, Htype.
    change (dispatch data (VStr "ping") (Get v "message"))
      with _respondToHeartbeatPing.
    rewrite (try_catch_ext _ _ _ _ (_respondToHeartbeatPing_eq c)).
    rewrite try_catch_send. apply Hsend. }
  split; [intros v Hv; apply sendObject_throws; exact Hv|].
  split; [intros d t e Hb; apply subscribeToTopic_throws; exact Hb|].
  split.
  { intros data v e Hframe Hb.
    rewrite (_messageHandler_hello data v c Hframe), Hb. reflexivity. }
  split.
  { intros v. destruct (serializable v) eqn:Hv.
    - rewrite (sendObject_eq _ _ Hv), Hsend. reflexivity.
    - rewrite (sendObject_throws _ _ Hv). reflexivity. }
  split.
  { intros d t. destruct (btoa t) as [b|e] eqn:Hb.
    - rewrite (subscribeToTopic_eq _ _ _ _ Hb), Hsend. reflexivity.
    - rewrite (subscribeToTopic_throws _ _ _ _ Hb). reflexivity. }
  intros data. apply sent_not_open. exact Hc.
Qed.

(** ** The handler on an open connection *)


Lemma _messageHandler_ping (data : string) (v : Value) (c : Client) :
  clean_frame "ping" data v ->
  _messageHandler data c = send (JSON_stringify (pingResponsePayload c)) c.
Proof.
  intros Hframe.
  destruct (clean_frame_object _ _ _ Hframe) as [Hn Hu].
  destruct Hframe as (Hparse & Htype & Herr).
  rewrite (_messageHandler_decoded data v c Hparse Hn Hu), Herr, Htype.
  change (dispatch data (VStr "ping") (Get v "message"))
    with _respondToHeartbeatPing.
  rewrite (try_catch_ext _ _ _ _ (_respondToHeartbeatPing_eq c)).
  apply try_catch_send.
Qed.


(** ** The socket along a run *)

Lemma with_wsClient_same (c : Client) : with_wsClient c (wsClient c) = c.
Proof. destruct c; reflexivity. Qed.

Lemma is_open_set_readyState (s : ReadyState) (c : Client) :
  wsClient c <> None ->
  is_open (set_readyState s c) = ReadyState_eqb s OPEN.
Proof.
  intros Hws. unfold is_open, set_readyState. cbn [wsClient with_wsClient].
  destruct (wsClient c); [reflexivity | contradiction].
Qed.

Lemma wsClient_set_readyState (s : ReadyState) (c : Client) :
  wsClient c <> None -> wsClient (set_readyState s c) <> None.
Proof.
  intros Hws. unfold set_readyState. cbn [wsClient with_wsClient].
  destruct (wsClient c); [discriminate | contradiction].
Qed.

(** Every event leaves the client as it was, but for the state of the
    socket. *)
Lemma deliver_state (ev : Event) (c : Client) :
  state (deliver ev c) =
    match ev with
    | EvOpen => set_readyState OPEN c
    | EvClose _ _ => set_readyState CLOSED c
    | CallClose _ _ => if is_open c then set_readyState CLOSING c else c
    | _ => c
    end.
Proof.
  destruct ev; cbn [deliver].
  - rewrite bind_ws_set_readyState, _sayHello_eq, send_state. reflexivity.
  - apply _messageHandler_state.
  - rewrite invoke_eq. reflexivity.
  - rewrite bind_ws_set_readyState, invoke_eq. reflexivity.
  - apply subscribeToTopic_state.
  - apply send_state.
  - apply sendObject_state.
  - unfold close. rewrite bind_this. destruct (is_open c); reflexivity.
Qed.

Lemma tracks_step (ev : Event) (p : SpecTable.Phase) (c : Client) :
  tracks p c ->
  tracks (SpecTable.next p (classify ev)) (state (deliver ev c)).
Proof.
  intros (Hws & Hconn & Hopen). rewrite deliver_state.
  assert (Hstay : forall t,
             match t with
             | SpecTable.Frame _ _ | SpecTable.DecodeFailure
             | SpecTable.TransportError | SpecTable.CallerSend => True
             | _ => False
             end ->
             tracks (SpecTable.next p t) c).
  { intros t Ht. repeat split; [assumption| |].
    - intros Hp. apply Hconn.
      destruct p, t; try contradiction; try reflexivity; try discriminate Hp;
        destruct type, error; discriminate Hp.
    - intros Hp. apply Hopen.
      destruct p, t; try contradiction; try reflexivity; try discriminate Hp;
        destruct type, error; discriminate Hp. }
  destruct ev; cbn [classify];
    try (apply Hstay; exact I).
  - repeat split.
    + apply wsClient_set_readyState; assumption.
    + intros Hp. destruct p; try discriminate Hp.
    + intros _. rewrite is_open_set_readyState by assumption. reflexivity.
  - apply Hstay.
    destruct (JSON_parse data) as [[]|]; exact I.
  - repeat split.
    + apply wsClient_set_readyState; assumption.
    + destruct p; discriminate.
    + destruct p; discriminate.
  - repeat split.
    + destruct (is_open c); [apply wsClient_set_readyState|]; assumption.
    + destruct p; discriminate.
    + destruct p; discriminate.
Qed.

Lemma phase_from_cons (p : SpecTable.Phase) (ev : Event) (rest : list Event) :
  phase_from p (ev :: rest) = phase_from (SpecTable.next p (classify ev)) rest.
Proof. reflexivity. Qed.

Lemma tracks_run (events : list Event) :
  forall p c, tracks p c -> tracks (phase_from p events) (client_after events c).
Proof.
  induction events as [|ev rest IH]; intros p c H; [exact H|].
  rewrite phase_from_cons, client_after_cons.
  apply IH, tracks_step, H.
Qed.

(** The identity of the session along a run: only the socket changes. *)
Lemma identity_step (ev : Event) (c : Client) :
  state (deliver ev c) = with_wsClient c (wsClient (state (deliver ev c))).
Proof.
  rewrite deliver_state.
  destruct ev; try (symmetry; apply with_wsClient_same);
    try reflexivity.
  destruct (is_open c); [reflexivity | symmetry; apply with_wsClient_same].
Qed.

Lemma identity_run (events : list Event) :
  forall c, client_after events c =
            with_wsClient c (wsClient (client_after events c)).
Proof.
  induction events as [|ev rest IH]; intros c.
  - symmetry. apply with_wsClient_same.
  - rewrite client_after_cons. rewrite (IH (state (deliver ev c))) at 1.
    rewrite (identity_step ev c) at 1. reflexivity.
Qed.

Lemma tracks_new (random : spec_float) (e a d : string) (t : string16) (hs : HandlerOptions) :
  tracks SpecTable.CONNECTING (constructor random e a d t hs).
Proof.
  repeat split; [discriminate | discriminate].
Qed.


Lemma deliver_open (c : Client) :
  wsClient c <> None ->
  deliver EvOpen c =
    {| log := [WsSend (JSON_stringify (helloPayload c))];
       state := set_readyState OPEN c;
       result := inl tt |}.
Proof.
  intros Hws. cbn [deliver].
  rewrite bind_ws_set_readyState, _sayHello_eq, send_open.
  - reflexivity.
  - rewrite is_open_set_readyState by assumption. reflexivity.
Qed.

(** ** The claims about connections *)


(** C8, as the code has it: while the table is ACTIVE, an inbound [ping]
    frame without a truthy [payload.error] is answered by exactly one frame,
    the encoding of the mapping with the two fields [id], the client id of the
    session, and [type], "ping"; nothing else happens. *)
Theorem ping_is_answered_while_active
    (random : spec_float) (e a d : string) (t : string16) (hs : HandlerOptions)
    (events : list Event) (data : string) (v : Value) :
  phase_after events = SpecTable.ACTIVE ->
  clean_frame "ping" data v ->
  let c0 := constructor random e a d t hs in
  let c := client_after events c0 in
  _messageHandler data c =
    {| log := [ WsSend (JSON_stringify
                          (VObj [ ("id", VStr (clientId c0));
                                  ("type", VStr "ping") ])) ];
       state := c;
       result := inl tt |}.
Proof.
  intros Hphase Hping c0 c.
  destruct (tracks_run events _ _ (tracks_new random e a d t hs))
    as (_ & _ & Hopen).
  fold c0 in Hopen. fold (phase_after events) in Hopen. fold c in Hopen.
  rewrite Hphase in Hopen. specialize (Hopen eq_refl).
  rewrite (_messageHandler_ping _ _ _ Hping), (send_open _ _ Hopen).
  unfold pingResponsePayload.
  replace (clientId c) with (clientId c0); [reflexivity|].
  unfold c. rewrite (identity_run events c0). reflexivity.
Qed.

Lemma close_eq (code : option Z) (data : option string) (c : Client) :
  close code data c =
    if is_open c
    then {| log := [WsClose code data];
            state := set_readyState CLOSING c;
            result := inl tt |}
    else nothing c.
Proof.
  unfold close. rewrite bind_this. destruct (is_open c); reflexivity.
Qed.

Lemma deliver_close_event (code : Z) (reason : string) (c : Client) :
  log (deliver (EvClose code reason) c) =
    [Invoke OnClose (ACloseEvent code reason)].
Proof.
  cbn [deliver]. rewrite bind_ws_set_readyState, invoke_eq. reflexivity.
Qed.



Lemma count_app (p : Effect -> bool) (l l' : list Effect) :
  count p (l ++ l') = count p l + count p l'.
Proof.
  unfold count. rewrite filter_app, length_app. reflexivity.
Qed.

Lemma count_escaped (p : Effect -> bool) (r : unit + Exn) :
  (forall e, p (Uncaught e) = false) -> count p (escaped r) = 0.
Proof.
  intros Hp. destruct r as [|e]; [reflexivity|].
  unfold count. cbn [escaped filter]. rewrite Hp. reflexivity.
Qed.

(** C7, as the code has it: of two calls of close in succession the first
    makes one transport-level close call when the socket is open and none
    otherwise, and the second is a no-op; neither calls the close handler,
    which is called once when the transport then reports the closure. *)
Theorem close_twice
    (c : Client) (code code' : option Z) (data data' : option string) :
  let events := [CallClose code data; CallClose code' data'] in
  effects_of events c = (if is_open c then [WsClose code data] else []) /\
  deliver (CallClose code' data') (client_after [CallClose code data] c) =
    nothing (client_after [CallClose code data] c) /\
  count is_ws_close (effects_of events c) <= 1 /\
  count (is_invoke OnClose) (effects_of events c) = 0 /\
  (forall k r,
     count (is_invoke OnClose) (effects_of (events ++ [EvClose k r]) c) = 1).
Proof.
  intros events.
  assert (Hfirst : deliver (CallClose code data) c = close code data c)
    by reflexivity.
  assert (Hsecond : forall c', is_open c' = false ->
                               deliver (CallClose code' data') c' = nothing c').
  { intros c' Hc'. cbn [deliver]. rewrite close_eq, Hc'. reflexivity. }
  assert (Hafter : is_open (client_after [CallClose code data] c) = false).
  { rewrite client_after_cons, deliver_state.
    destruct (is_open c) eqn:Hc; cbn [client_after run snd]; [|exact Hc].
    unfold is_open, set_readyState. cbn [wsClient with_wsClient].
    destruct (wsClient c); reflexivity. }
  assert (Heff : effects_of events c =
                 if is_open c then [WsClose code data] else []).
  { unfold events. rewrite effects_of_cons, Hfirst, close_eq.
    destruct (is_open c) eqn:Hc; cbn [log state result escaped app nothing].
    - rewrite effects_of_cons, Hsecond; [reflexivity|].
      unfold is_open, set_readyState. cbn [wsClient with_wsClient].
      destruct (wsClient c); reflexivity.
    - rewrite effects_of_cons, Hsecond by exact Hc. reflexivity. }
  repeat split.
  - exact Heff.
  - apply Hsecond, Hafter.
  - rewrite Heff. destruct (is_open c); cbn; lia.
  - rewrite Heff. destruct (is_open c); reflexivity.
  - intros k r. unfold events. cbn [app].
    rewrite effects_of_cons, Hfirst, close_eq.
    destruct (is_open c) eqn:Hc; cbn [log state result escaped app nothing].
    + rewrite effects_of_cons, Hsecond.
      * cbn [log state result escaped app nothing].
        rewrite effects_of_cons, deliver_close_event.
        change (WsClose code data :: ?l) with ([WsClose code data] ++ l)%list.
        rewrite !count_app, count_escaped by reflexivity. reflexivity.
      * unfold is_open, set_readyState. cbn [wsClient with_wsClient].
        destruct (wsClient c); reflexivity.
    + rewrite effects_of_cons, Hsecond by exact Hc.
      cbn [log state result escaped app nothing].
      rewrite effects_of_cons, deliver_close_event.
      rewrite !count_app, count_escaped by reflexivity. reflexivity.
Qed.

(** C1, as the code has it: the client keeps no phase.  Whatever events came
    before, an inbound [pub] frame without error is forwarded to the publish
    handler, once; and an inbound [hello] acknowledgement without error,
    whenever the socket is open and every time one arrives, makes the client
    send a [sub] frame when [btoa] encodes the topic of the session, and call
    the error handler with what [btoa] throws when it does not. *)
Theorem pub_and_hello_are_handled_in_every_phase
    (c0 : Client) (events : list Event) (data : string) (v : Value) :
  JSON_parse data = Some v ->
  carries_error (Get v "payload") = false ->
  let c := client_after events c0 in
  (Get v "type" = VStr "pub" ->
   log (_messageHandler data c) =
     Invoke OnPubMessage (AValue (Get v "message")) ::
     after_throw c OnPubMessage (AValue (Get v "message")) /\
   count (is_invoke OnPubMessage) (log (_messageHandler data c)) = 1) /\
  (Get v "type" = VStr "hello" ->
   is_open c = true ->
   log (_messageHandler data c) =
     match btoa (topic c0) with
     | inl b =>
         [ WsSend (JSON_stringify
                     (VObj [ ("id", VStr (clientId c0));
                             ("path", VStr ("/devices/" ++ deviceId c0 ++
                                            "/netfieldproxy/" ++ b));
                             ("type", VStr "sub") ])) ]
     | inr e => [Invoke OnError (AError e)]
     end).
Proof.
  intros Hparse Herr c. split.
  - intros Htype.
    assert (Hframe : clean_frame "pub" data v) by (repeat split; assumption).
    rewrite (_messageHandler_pub data v c Hframe), try_catch_invoke.
    cbn [log]. split; [reflexivity | apply count_pub_once].
  - intros Htype Hopen.
    assert (Hframe : clean_frame "hello" data v) by (repeat split; assumption).
    rewrite (_messageHandler_hello data v c Hframe).
    assert (Hid : topic c = topic c0 /\ deviceId c = deviceId c0 /\
                  clientId c = clientId c0).
    { unfold c. rewrite (identity_run events c0). repeat split. }
    destruct Hid as (-> & Hd & Hi).
    destruct (btoa (topic c0)) as [b|e].
    + rewrite (send_open _ _ Hopen). cbn [log].
      unfold subscribePayload. rewrite Hd, Hi. reflexivity.
    + rewrite invoke_eq. reflexivity.
Qed.

(** C5, at the input where it fails: when [Math.random()] returns 0, the sum
    with 1 is the integer 1, its text in radix 36 is "1", and nothing is left
    after the first seven code units: the client id is the empty string,
    whatever digits the platform prints for fractions. *)
Theorem clientId_is_empty_when_random_is_zero
    (e a d : string) (t : string16) (hs : HandlerOptions) :
  Number_toString36 (binary64_add (S754_zero false) one) = "1" /\
  generate_clientId (S754_zero false) = "" /\
  clientId (constructor (S754_zero false) e a d t hs) = "".
Proof.
  split; [|split]; reflexivity.
Qed.

End Properties.

(** * More properties of the source *)

Section MoreProperties.

Context {platform : Platform}.

(** ** Frames off the protocol *)

(** X1: a text that [JSON.parse] rejects reaches the error handler, once,
    with the exception and not with the text; nothing is sent, the client is
    unchanged, and the listener throws only if the error handler does. *)
Theorem undecodable_text_reaches_the_error_handler
    (data : string) (c : Client) :
  JSON_parse data = None ->
  _messageHandler data c =
    {| log := [Invoke OnError (AError SyntaxError)];
       state := c;
       result := match errorHandler c (AError SyntaxError) with
                 | None => inl tt
                 | Some e => inr e
                 end |}.
Proof.
  intros Hparse. unfold _messageHandler, parse. rewrite Hparse.
  rewrite (try_catch_ext _ (throw SyntaxError)) by apply bind_throw.
  rewrite try_catch_throw, invoke_eq. reflexivity.
Qed.

(** X2: the text [null] decodes, but taking [type], [message] and [payload]
    out of [null] throws: the frame reaches the error handler with that
    exception, not the unexpected-message handler, and nothing else
    happens. *)
Theorem null_frame_reaches_the_error_handler (data : string) (c : Client) :
  JSON_parse data = Some VNull ->
  _messageHandler data c =
    {| log := [Invoke OnError (AError TypeError)];
       state := c;
       result := match errorHandler c (AError TypeError) with
                 | None => inl tt
                 | Some e => inr e
                 end |}.
Proof.
  intros Hparse. unfold _messageHandler, parse. rewrite Hparse.
  rewrite (try_catch_ext _ (throw TypeError))
    by (rewrite bind_ret; apply bind_throw).
  rewrite try_catch_throw, invoke_eq. reflexivity.
Qed.

Lemma eqb_other (s : string) :
  s <> "hello" -> s <> "sub" -> s <> "ping" -> s <> "pub" ->
  (s =? "hello") = false /\ (s =? "sub") = false /\
  (s =? "ping") = false /\ (s =? "pub") = false.
Proof.
  intros H1 H2 H3 H4. repeat split; apply String.eqb_neq; assumption.
Qed.

(** X3: a frame that decodes to anything but [null], carries no truthy
    [payload.error] and whose [type] is none of the four strings (another
    string, no string, or missing, as in a number or an array) reaches the
    unexpected-message handler, once, with the raw text; nothing is sent and
    the client is unchanged. *)
Theorem unrecognised_frames_reach_the_unexpected_handler
    (data : string) (v : Value) (c : Client) :
  JSON_parse data = Some v ->
  v <> VNull -> v <> VUndefined ->
  carries_error (Get v "payload") = false ->
  (forall s, Get v "type" = VStr s ->
             s <> "hello" /\ s <> "sub" /\ s <> "ping" /\ s <> "pub") ->
  log (_messageHandler data c) =
    Invoke OnUnexpectedMessage (ARaw data) ::
    after_throw c OnUnexpectedMessage (ARaw data) /\
  count (is_invoke OnUnexpectedMessage) (log (_messageHandler data c)) = 1 /\
  sent (log (_messageHandler data c)) = [] /\
  state (_messageHandler data c) = c.
Proof.
  intros Hparse Hn Hu Herr Htype.
  assert (Hlog : log (_messageHandler data c) =
                 Invoke OnUnexpectedMessage (ARaw data) ::
                 after_throw c OnUnexpectedMessage (ARaw data)).
  { rewrite _messageHandler_log, Hparse.
    destruct v as [| | | | |items|fields|n]; try contradiction; rewrite Herr;
      try reflexivity.
    destruct (Get (VObj fields) "type") as [| | | |s| | |] eqn:Ht; try reflexivity.
    destruct (Htype s eq_refl) as (H1 & H2 & H3 & H4).
    destruct (eqb_other s H1 H2 H3 H4) as (-> & -> & -> & ->).
    reflexivity. }
  rewrite Hlog. repeat split.
  - unfold after_throw.
    destruct (handler_of c OnUnexpectedMessage (ARaw data)); reflexivity.
  - apply sent_after_throw.
  - apply _messageHandler_state.
Qed.

(** X4: [payload && payload.error] holds exactly when the payload is an
    object with a truthy own [error]: a payload that is a string, a number,
    an array or [true] is not an error, and neither is an [error] that is
    0, the empty string, [null] or [false]. *)
Theorem carries_error_iff (payload : Value) :
  carries_error payload = true <->
  exists fields,
    payload = VObj fields /\ ToBoolean (own_property "error" fields) = true.
Proof.
  unfold carries_error. split.
  - intros H. apply andb_true_iff in H. destruct H as [_ H].
    destruct payload; try discriminate H.
    exists fields. split; [reflexivity | exact H].
  - intros (fields & -> & H). cbn [ToBoolean Get andb]. exact H.
Qed.

Lemma after_throw_cases (c : Client) (h : Slot) (a : Arg) :
  after_throw c h a = [] \/
  exists e, handler_of c h a = Some e /\
            after_throw c h a = [Invoke OnError (AError e)].
Proof.
  unfold after_throw. destruct (handler_of c h a) as [e|]; [right|left].
  - exists e. split; reflexivity.
  - reflexivity.
Qed.

(** The log of the listener is empty, or one frame sent, or one call of a
    handler other than the close handler, followed by a call of the error
    handler when it throws. *)
Lemma _messageHandler_log_shape (data : string) (c : Client) :
  let l := log (_messageHandler data c) in
  l = [] \/
  (exists s, l = [WsSend s]) \/
  (exists h a, h <> OnClose /\
     (l = [Invoke h a] \/
      exists e, handler_of c h a = Some e /\
                l = [Invoke h a; Invoke OnError (AError e)])).
Proof.
  intros l. unfold l. clear l. rewrite _messageHandler_log.
  assert (Hcall : forall h a l',
             h <> OnClose -> l' = Invoke h a :: after_throw c h a ->
             l' = [] \/ (exists s, l' = [WsSend s]) \/
             (exists h a, h <> OnClose /\
                (l' = [Invoke h a] \/
                 exists e, handler_of c h a = Some e /\
                           l' = [Invoke h a; Invoke OnError (AError e)]))).
  { intros h a l' Hh ->. right; right. exists h, a. split; [exact Hh|].
    destruct (after_throw_cases c h a) as [-> | (e & He & ->)];
      [left; reflexivity | right; exists e; split; [exact He | reflexivity]]. }
  assert (Hone : forall a l',
             l' = [Invoke OnError a] ->
             l' = [] \/ (exists s, l' = [WsSend s]) \/
             (exists h a, h <> OnClose /\
                (l' = [Invoke h a] \/
                 exists e, handler_of c h a = Some e /\
                           l' = [Invoke h a; Invoke OnError (AError e)]))).
  { intros a l' ->. right; right. exists OnError, a.
    split; [discriminate | left; reflexivity]. }
  assert (Hsend : forall s l',
             l' = (if is_open c then [WsSend s] else []) ->
             l' = [] \/ (exists s, l' = [WsSend s]) \/
             (exists h a, h <> OnClose /\
                (l' = [Invoke h a] \/
                 exists e, handler_of c h a = Some e /\
                           l' = [Invoke h a; Invoke OnError (AError e)]))).
  { intros s l' ->. destruct (is_open c);
      [right; left; exists s; reflexivity | left; reflexivity]. }
  destruct (JSON_parse data) as [v|]; [|eapply Hone; reflexivity].
  destruct v; try (eapply Hone; reflexivity);
    (destruct (carries_error _);
     [eapply Hcall; cycle 1; [reflexivity | discriminate]|]);
    cbn [Get];
    try (eapply Hcall; cycle 1; [reflexivity | discriminate]).
  destruct (own_property "type" fields);
    try (eapply Hcall; cycle 1; [reflexivity | discriminate]).
  destruct (s =? "hello").
  { destruct (btoa (topic c)); [eapply Hsend | eapply Hone]; reflexivity. }
  destruct (s =? "sub"); [left; reflexivity|].
  destruct (s =? "ping"); [eapply Hsend; reflexivity|].
  destruct (s =? "pub"); eapply Hcall; cycle 1; try reflexivity; discriminate.
Qed.

Lemma a_frame_shape_no_close (data : string) (c : Client) :
  count is_ws_close (log (_messageHandler data c)) = 0 /\
  count is_uncaught (log (_messageHandler data c)) = 0.
Proof.
  destruct (_messageHandler_log_shape data c)
    as [H | [(s & H) | (h & a & _ & [H | (e & _ & H)])]];
    cbn zeta in H; rewrite H; split; reflexivity.
Qed.

(** X5: whatever the frame, the listener hands at most one frame to the
    socket and calls at most two handlers, and never both sends and calls; a
    second call is the error handler's, with what the first handler threw;
    it never closes the socket and never calls the close handler. *)
Theorem a_frame_has_one_reaction (data : string) (c : Client) :
  let l := log (_messageHandler data c) in
  length (sent l) <= 1 /\
  length (handler_calls l) <= 2 /\
  (sent l <> [] -> handler_calls l = []) /\
  (forall h a x rest,
     handler_calls l = Invoke h a :: x :: rest ->
     rest = [] /\
     exists e, handler_of c h a = Some e /\ x = Invoke OnError (AError e)) /\
  count is_ws_close l = 0 /\
  count (is_invoke OnClose) l = 0.
Proof.
  intros l.
  destruct (_messageHandler_log_shape data c)
    as [H | [(s & H) | (h & a & Hh & [H | (e & He & H)])]];
    fold l in H; rewrite H; cbn [sent handler_calls filter length];
    (split; [lia|]); (split; [lia|]); split; [| split | | split | | split | | split].
  - reflexivity.
  - intros ? ? ? ? Hx. discriminate Hx.
  - split; reflexivity.
  - reflexivity.
  - intros ? ? ? ? Hx. discriminate Hx.
  - split; reflexivity.
  - intros Hx. contradiction.
  - intros ? ? ? ? Hx. discriminate Hx.
  - split; [reflexivity|]. destruct h; try reflexivity. contradiction.
  - intros Hx. contradiction.
  - intros h' a' x rest Hx. injection Hx as -> -> <- <-.
    split; [reflexivity|]. exists e. split; [exact He | reflexivity].
  - split; [reflexivity|]. destruct h; try reflexivity. contradiction.
Qed.

(** ** Exceptions *)

Lemma try_catch_result (m : M unit) (c : Client) (e : Exn) :
  state (m c) = c ->
  result (try_catch m (fun error => invoke OnError (AError error)) c) = inr e ->
  exists a, errorHandler c a = Some e.
Proof.
  unfold try_catch. destruct (m c) as [l s r]. cbn [state result log].
  intros ->. destruct r as [u|e0]; cbn [result]; [discriminate|].
  rewrite invoke_eq. cbn [result handler_of].
  destruct (errorHandler c (AError e0)) as [e'|] eqn:He; [|discriminate].
  intros H. injection H as <-. exists (AError e0). exact He.
Qed.

Lemma _messageHandler_result (data : string) (c : Client) (e : Exn) :
  result (_messageHandler data c) = inr e ->
  exists a, errorHandler c a = Some e.
Proof.
  destruct (decoded_cases (JSON_parse data)) as [H | (v & Hparse & Hn & Hu)].
  - destruct (_messageHandler_undecoded data c H) as [e0 ->].
    rewrite invoke_eq. cbn [result handler_of].
    destruct (errorHandler c (AError e0)) as [e'|] eqn:He; [|discriminate].
    intros Hr. injection Hr as <-. exists (AError e0). exact He.
  - rewrite (_messageHandler_decoded data v c Hparse Hn Hu).
    apply try_catch_result.
    destruct (carries_error (Get v "payload")).
    + rewrite invoke_eq. reflexivity.
    + apply dispatch_state.
Qed.

(** X6: the listener catches what the handlers throw: an exception leaves
    [_messageHandler] only if the error handler threw it. *)
Theorem only_the_error_handler_makes_the_listener_throw
    (data : string) (c : Client) (e : Exn) :
  result (_messageHandler data c) = inr e ->
  exists a, In (Invoke OnError a) (log (_messageHandler data c)) /\
            errorHandler c a = Some e.
Proof.
  intros Hr.
  destruct (decoded_cases (JSON_parse data)) as [H | (v & Hparse & Hn & Hu)].
  - destruct (_messageHandler_undecoded data c H) as [e0 Heq].
    rewrite Heq in Hr |- *. rewrite invoke_eq in Hr |- *.
    cbn [result log handler_of] in *.
    exists (AError e0). split; [left; reflexivity|].
    destruct (errorHandler c (AError e0)); [injection Hr as ->; reflexivity | discriminate].
  - rewrite (_messageHandler_decoded data v c Hparse Hn Hu) in Hr |- *.
    unfold try_catch in Hr |- *.
    set (m := (if carries_error (Get v "payload") then invoke OnError (ARaw data)
               else dispatch data (Get v "type") (Get v "message"))) in *.
    assert (Hs : state (m c) = c).
    { unfold m. destruct (carries_error (Get v "payload")).
      - rewrite invoke_eq. reflexivity.
      - apply dispatch_state. }
    destruct (m c) as [l s r]. cbn [state result log] in *. subst s.
    destruct r as [u|e0]; cbn [result log] in *; [discriminate|].
    rewrite invoke_eq in Hr |- *. cbn [result log handler_of] in *.
    exists (AError e0). split; [apply in_or_app; right; left; reflexivity|].
    destruct (errorHandler c (AError e0)); [injection Hr as ->; reflexivity | discriminate].
Qed.

Lemma handler_of_with_wsClient (c : Client) (ws : option WebSocket) (h : Slot) :
  handler_of (with_wsClient c ws) h = handler_of c h.
Proof. destruct h; reflexivity. Qed.

Lemma send_result (dataString : string) (c : Client) :
  result (send dataString c) = inl tt.
Proof.
  destruct (is_open c) eqn:Hc.
  - rewrite send_open by assumption. reflexivity.
  - rewrite send_not_open by assumption. reflexivity.
Qed.

(** With handlers that do not throw, every listener returns, and so does
    every method whose encoder returns. *)
Lemma deliver_returns (ev : Event) (c : Client) :
  (forall h a, handler_of c h a = None) ->
  encodable ev = true ->
  result (deliver ev c) = inl tt.
Proof.
  intros Hquiet Henc.
  destruct ev as [|data|detail|code reason|deviceId0 topic0|dataString|dataObj|code data];
    cbn [deliver].
  - rewrite bind_ws_set_readyState, _sayHello_eq. apply send_result.
  - destruct (result (_messageHandler data c)) as [[]|e] eqn:Hr; [reflexivity|].
    destruct (_messageHandler_result data c e Hr) as [a Ha].
    change (errorHandler c a) with (handler_of c OnError a) in Ha.
    rewrite Hquiet in Ha. discriminate Ha.
  - rewrite invoke_eq. cbn [result]. rewrite Hquiet. reflexivity.
  - rewrite bind_ws_set_readyState, invoke_eq. cbn [result].
    unfold set_readyState. rewrite handler_of_with_wsClient, Hquiet. reflexivity.
  - cbn [encodable] in Henc. destruct (btoa topic0) as [b|e] eqn:Hb;
      [|discriminate Henc].
    rewrite (subscribeToTopic_eq _ _ _ _ Hb). apply send_result.
  - apply send_result.
  - cbn [encodable] in Henc. rewrite (sendObject_eq _ _ Henc). apply send_result.
  - rewrite close_eq. destruct (is_open c); reflexivity.
Qed.

Lemma send_log_cases (dataString : string) (c : Client) :
  log (send dataString c) = [] \/ log (send dataString c) = [WsSend dataString].
Proof.
  destruct (is_open c) eqn:Hc.
  - rewrite send_open by assumption. right. reflexivity.
  - rewrite send_not_open by assumption. left. reflexivity.
Qed.

Lemma sendObject_log_cases (dataObj : Value) (c : Client) :
  log (sendObject dataObj c) = [] \/
  log (sendObject dataObj c) = [WsSend (JSON_stringify dataObj)].
Proof.
  destruct (serializable dataObj) eqn:Hs.
  - rewrite (sendObject_eq _ _ Hs). apply send_log_cases.
  - rewrite (sendObject_throws _ _ Hs). left. reflexivity.
Qed.

Lemma subscribeToTopic_log_cases (d : string) (t : string16) (c : Client) :
  log (subscribeToTopic d t c) = [] \/
  exists b, btoa t = inl b /\
            log (subscribeToTopic d t c) =
              [WsSend (JSON_stringify (subscribePayload c d b))].
Proof.
  destruct (btoa t) as [b|e] eqn:Hb.
  - rewrite (subscribeToTopic_eq _ _ _ _ Hb).
    destruct (send_log_cases (JSON_stringify (subscribePayload c d b)) c)
      as [H | H]; [left; exact H | right; exists b; split; [reflexivity | exact H]].
  - rewrite (subscribeToTopic_throws _ _ _ _ Hb). left. reflexivity.
Qed.

(** No log of a listener or method holds an escaped exception: the run adds
    them. *)
Lemma deliver_log_no_uncaught (ev : Event) (c : Client) :
  count is_uncaught (log (deliver ev c)) = 0.
Proof.
  destruct ev as [|data|detail|code reason|deviceId0 topic0|dataString|dataObj|code data];
    cbn [deliver].
  - rewrite bind_ws_set_readyState, _sayHello_eq.
    destruct (send_log_cases (JSON_stringify (helloPayload (set_readyState OPEN c)))
                (set_readyState OPEN c)) as [-> | ->]; reflexivity.
  - destruct (_messageHandler_log_shape data c)
      as [H | [(s & H) | (h & a & _ & [H | (e & _ & H)])]];
      cbn zeta in H; rewrite H; reflexivity.
  - rewrite invoke_eq. reflexivity.
  - rewrite bind_ws_set_readyState, invoke_eq. reflexivity.
  - destruct (subscribeToTopic_log_cases deviceId0 topic0 c)
      as [-> | (b & _ & ->)]; reflexivity.
  - destruct (send_log_cases dataString c) as [-> | ->]; reflexivity.
  - destruct (sendObject_log_cases dataObj c) as [-> | ->]; reflexivity.
  - rewrite close_eq. destruct (is_open c); reflexivity.
Qed.

(** X7: when none of the four handlers throws, no exception escapes a
    listener, whatever the transport delivers; and none escapes a public
    method either, as long as the encoder that the method runs first returns:
    [JSON.stringify] on the argument of [sendObject], [btoa] on the topic of
    [subscribeToTopic]. *)
Theorem nothing_escapes_when_the_handlers_return
    (events : list Event) (c : Client) :
  (forall h a, handler_of c h a = None) ->
  forallb encodable events = true ->
  count is_uncaught (effects_of events c) = 0.
Proof.
  revert c. induction events as [|ev rest IH]; intros c Hquiet Henc;
    [reflexivity|].
  cbn [forallb] in Henc. apply andb_true_iff in Henc. destruct Henc as [Hev Hrest].
  rewrite effects_of_cons, !count_app.
  rewrite deliver_log_no_uncaught, (deliver_returns ev c Hquiet Hev).
  cbn [escaped count filter length plus].
  apply IH; [|exact Hrest]. intros h a.
  rewrite (identity_step ev c), handler_of_with_wsClient. apply Hquiet.
Qed.

(** ** The session along a run *)




Lemma sent_app (l l' : list Effect) : sent (l ++ l') = (sent l ++ sent l')%list.
Proof.
  induction l as [|x l IH]; [reflexivity|].
  destruct x; cbn [sent app]; rewrite IH; reflexivity.
Qed.

Lemma sent_escaped (r : unit + Exn) : sent (escaped r) = [].
Proof. destruct r; reflexivity. Qed.

Lemma is_open_not_set (s : ReadyState) (c : Client) :
  s <> OPEN -> is_open (set_readyState s c) = false.
Proof.
  intros Hs. unfold is_open, set_readyState. cbn [wsClient with_wsClient].
  destruct (wsClient c); [|reflexivity]. cbn [option_map readyState].
  destruct s; try reflexivity. contradiction.
Qed.

(** While the socket is not open, no event but the open event makes the
    client send or close, or opens the socket. *)
Lemma quiet_step (ev : Event) (c : Client) :
  is_open c = false -> is_open_event ev = false ->
  sent (log (deliver ev c)) = [] /\
  count is_ws_close (log (deliver ev c)) = 0 /\
  is_open (state (deliver ev c)) = false.
Proof.
  intros Hc Hev.
  destruct ev as [|data|detail|code reason|deviceId0 topic0|dataString|dataObj|code data];
    cbn [deliver]; try discriminate Hev.
  - repeat split.
    + apply sent_not_open, Hc.
    + destruct (a_frame_shape_no_close data c) as [H _]. exact H.
    + rewrite _messageHandler_state. exact Hc.
  - rewrite invoke_eq. repeat split. exact Hc.
  - rewrite bind_ws_set_readyState, invoke_eq. cbn [log state].
    repeat split. apply is_open_not_set. discriminate.
  - destruct (btoa topic0) as [b|e] eqn:Hb.
    + rewrite (subscribeToTopic_eq _ _ _ _ Hb), send_not_open by exact Hc.
      repeat split. exact Hc.
    + rewrite (subscribeToTopic_throws _ _ _ _ Hb). repeat split. exact Hc.
  - rewrite send_not_open by exact Hc. repeat split. exact Hc.
  - destruct (serializable dataObj) eqn:Hs.
    + rewrite (sendObject_eq _ _ Hs), send_not_open by exact Hc.
      repeat split. exact Hc.
    + rewrite (sendObject_throws _ _ Hs). repeat split. exact Hc.
  - rewrite close_eq, Hc. repeat split. exact Hc.
Qed.

Lemma quiet_run (events : list Event) :
  forall c,
    is_open c = false -> existsb is_open_event events = false ->
    sent (effects_of events c) = [] /\
    count is_ws_close (effects_of events c) = 0 /\
    is_open (client_after events c) = false.
Proof.
  induction events as [|ev rest IH]; intros c Hc Hev.
  - repeat split. exact Hc.
  - cbn [existsb] in Hev. apply orb_false_iff in Hev. destruct Hev as [Hev Hrest].
    destruct (quiet_step ev c Hc Hev) as (Hs & Hw & Ho).
    destruct (IH _ Ho Hrest) as (Hs' & Hw' & Ho').
    rewrite effects_of_cons, client_after_cons.
    rewrite !sent_app, !count_app, Hs, Hs', Hw, Hw', sent_escaped.
    rewrite count_escaped by reflexivity.
    repeat split. exact Ho'.
Qed.

(** X9: a client whose socket is not open (a new client that is still
    connecting, a client after close) sends nothing, closes nothing and stays
    that way until the transport reports open, whatever arrives and whatever
    the caller calls. *)
Theorem nothing_is_sent_until_the_open_event
    (events : list Event) (c : Client) :
  is_open c = false ->
  existsb is_open_event events = false ->
  sent (effects_of events c) = [] /\
  count is_ws_close (effects_of events c) = 0 /\
  is_open (client_after events c) = false.
Proof.
  intros Hc Hev. apply quiet_run; assumption.
Qed.

(** X10: once the transport has reported its closure, the close handler has
    been called with the event, and from then on no frame is sent and the
    socket's [close] is not called, whatever arrives and whatever the caller
    calls, a later [close()] included. *)
Theorem after_the_transport_closed
    (k : Z) (r : string) (events : list Event) (c : Client) :
  existsb is_open_event events = false ->
  log (deliver (EvClose k r) c) = [Invoke OnClose (ACloseEvent k r)] /\
  sent (effects_of (EvClose k r :: events) c) = [] /\
  count is_ws_close (effects_of (EvClose k r :: events) c) = 0.
Proof.
  intros Hev.
  assert (Hclosed : is_open (state (deliver (EvClose k r) c)) = false).
  { rewrite deliver_state. apply is_open_not_set. discriminate. }
  destruct (quiet_run events _ Hclosed Hev) as (Hs & Hw & _).
  rewrite effects_of_cons, !sent_app, !count_app, Hs, Hw, sent_escaped.
  rewrite count_escaped by reflexivity.
  rewrite deliver_close_event. repeat split.
Qed.

(** ** What the client sends *)

(** X11: a client as the constructor builds it answers the open event with
    exactly one frame, the encoding of [{type: "hello", auth: {headers:
    {authorization}}, id, version: "2"}] with the credential given to the
    constructor and the client id it generated; it calls no handler. *)
Theorem a_new_client_says_hello_when_the_socket_opens
    (random : spec_float) (e a d : string) (t : string16) (hs : HandlerOptions) :
  effects_of [EvOpen] (constructor random e a d t hs) =
    [ WsSend (JSON_stringify
                (VObj [ ("type", VStr "hello");
                        ("auth", VObj [ ("headers",
                                         VObj [ ("authorization", VStr a) ]) ]);
                        ("id", VStr (generate_clientId random));
                        ("version", VStr "2") ])) ] /\
  is_open (client_after [EvOpen] (constructor random e a d t hs)) = true.
Proof.
  assert (Hws : wsClient (constructor random e a d t hs) <> None) by discriminate.
  rewrite effects_of_cons, client_after_cons, (deliver_open _ Hws).
  split; reflexivity.
Qed.

(** X12: [subscribeToTopic] called by the caller on an open connection, with
    a topic that [btoa] encodes, sends a [sub] frame for the device and topic
    of the call, and does not replace the device and topic of the session: a
    [hello] acknowledgement that arrives afterwards subscribes to those given
    to the constructor (here with a topic that [btoa] encodes too). *)
Theorem explicit_subscription_keeps_the_session_topic
    (c : Client) (d : string) (t : string16) (b b0 : string)
    (data : string) (v : Value) :
  is_open c = true ->
  btoa t = inl b ->
  btoa (topic c) = inl b0 ->
  clean_frame "hello" data v ->
  effects_of [CallSubscribeToTopic d t; EvMessage data] c =
    [ WsSend (JSON_stringify
                (VObj [ ("id", VStr (clientId c));
                        ("path", VStr ("/devices/" ++ d ++ "/netfieldproxy/" ++ b));
                        ("type", VStr "sub") ]));
      WsSend (JSON_stringify
                (VObj [ ("id", VStr (clientId c));
                        ("path", VStr ("/devices/" ++ deviceId c ++
                                       "/netfieldproxy/" ++ b0));
                        ("type", VStr "sub") ])) ] /\
  client_after [CallSubscribeToTopic d t; EvMessage data] c = c.
Proof.
  intros Hopen Hb Hb0 Hhello.
  rewrite effects_of_cons, !client_after_cons. cbn [deliver].
  rewrite (subscribeToTopic_eq _ _ _ _ Hb), (send_open _ _ Hopen).
  cbn [log state result escaped app].
  rewrite effects_of_cons. cbn [deliver].
  rewrite (_messageHandler_hello _ _ _ Hhello), Hb0, (send_open _ _ Hopen).
  split; reflexivity.
Qed.

Lemma sent_messageHandler_cases (data : string) (c : Client) :
  sent (log (_messageHandler data c)) = [] \/
  (exists b, btoa (topic c) = inl b /\
             sent (log (_messageHandler data c)) =
               [JSON_stringify (subscribePayload c (deviceId c) b)]) \/
  sent (log (_messageHandler data c)) =
    [JSON_stringify (pingResponsePayload c)].
Proof.
  rewrite _messageHandler_log.
  destruct (JSON_parse data) as [v|]; [|left; reflexivity].
  destruct v as [| | | | |items|fields|n]; try (left; reflexivity);
    (destruct (carries_error _); [left; apply sent_after_throw|]);
    cbn [Get]; try (left; apply sent_after_throw).
  destruct (own_property "type" fields); try (left; apply sent_after_throw).
  destruct (s =? "hello").
  { destruct (btoa (topic c)) as [b|e]; [|left; reflexivity].
    destruct (is_open c); [|left; reflexivity].
    right; left. exists b. split; reflexivity. }
  destruct (s =? "sub"); [left; reflexivity|].
  destruct (s =? "ping").
  { destruct (is_open c); [right; right; reflexivity | left; reflexivity]. }
  destruct (s =? "pub"); left; apply sent_after_throw.
Qed.

Lemma sent_send_cases (dataString : string) (c : Client) :
  sent (log (send dataString c)) = [] \/
  sent (log (send dataString c)) = [dataString].
Proof.
  destruct (send_log_cases dataString c) as [-> | ->];
    [left | right]; reflexivity.
Qed.

(** X13: left to the transport (no call of [send], [sendObject] or
    [subscribeToTopic] by the caller), the client only ever sends three
    frames: its [hello], the [sub] for the device and topic of the session
    (with the text that [btoa] returns for the topic), and the [ping]
    response. *)
Theorem only_protocol_frames_are_sent (events : list Event) (c : Client) :
  forallb from_transport events = true ->
  Forall (fun s =>
            s = JSON_stringify (helloPayload c) \/
            (exists b, btoa (topic c) = inl b /\
                       s = JSON_stringify (subscribePayload c (deviceId c) b)) \/
            s = JSON_stringify (pingResponsePayload c))
         (sent (effects_of events c)).
Proof.
  intros Hev.
  assert (Hgen : forall c',
             c' = with_wsClient c (wsClient c') ->
             Forall (fun s =>
                       s = JSON_stringify (helloPayload c) \/
                       (exists b, btoa (topic c) = inl b /\
                          s = JSON_stringify (subscribePayload c (deviceId c) b)) \/
                       s = JSON_stringify (pingResponsePayload c))
                    (sent (effects_of events c'))).
  { induction events as [|ev rest IH]; intros c' Hc'; [constructor|].
    cbn [forallb] in Hev. apply andb_true_iff in Hev. destruct Hev as [Hev Hrest].
    rewrite effects_of_cons, !sent_app, sent_escaped. cbn [app].
    apply Forall_app. split.
    - destruct ev as [|data|detail|code reason|d t|dataString|dataObj|code data];
        try discriminate Hev; cbn [deliver].
      + rewrite bind_ws_set_readyState, _sayHello_eq.
        destruct (sent_send_cases
                    (JSON_stringify (helloPayload (set_readyState OPEN c')))
                    (set_readyState OPEN c')) as [-> | ->]; [constructor|].
        constructor; [|constructor]. left. rewrite Hc'. reflexivity.
      + destruct (sent_messageHandler_cases data c')
          as [-> | [(b & Hb & ->) | ->]];
          [constructor | |]; (constructor; [|constructor]).
        * right; left. exists b. rewrite Hc' in Hb |- *.
          split; [exact Hb | reflexivity].
        * right; right. rewrite Hc'. reflexivity.
      + rewrite invoke_eq. constructor.
      + rewrite bind_ws_set_readyState, invoke_eq. constructor.
    - apply IH; [exact Hrest|].
      rewrite (identity_step ev c') at 1. rewrite Hc' at 1. reflexivity. }
  apply Hgen. symmetry. apply with_wsClient_same.
Qed.

(** X14: the client sends at most one frame per event: it never bursts,
    never repeats a frame and never queues one for later. *)
Theorem at_most_one_frame_per_event (events : list Event) (c : Client) :
  length (sent (effects_of events c)) <= length events.
Proof.
  revert c. induction events as [|ev rest IH]; intros c; [apply le_n|].
  rewrite effects_of_cons, !sent_app, sent_escaped, length_app.
  cbn [app length].
  assert (Hone : length (sent (log (deliver ev c))) <= 1).
  { destruct ev as [|data|detail|code reason|d t|dataString|dataObj|code data];
      cbn [deliver].
    - rewrite bind_ws_set_readyState, _sayHello_eq.
      destruct (sent_send_cases
                  (JSON_stringify (helloPayload (set_readyState OPEN c)))
                  (set_readyState OPEN c)) as [-> | ->]; cbn; lia.
    - destruct (sent_messageHandler_cases data c)
        as [-> | [(b & _ & ->) | ->]]; cbn; lia.
    - rewrite invoke_eq. cbn. lia.
    - rewrite bind_ws_set_readyState, invoke_eq. cbn. lia.
    - destruct (subscribeToTopic_log_cases d t c) as [-> | (b & _ & ->)];
        cbn; lia.
    - destruct (sent_send_cases dataString c) as [-> | ->]; cbn; lia.
    - destruct (sendObject_log_cases dataObj c) as [-> | ->]; cbn; lia.
    - rewrite close_eq. destruct (is_open c); cbn; lia. }
  specialize (IH (state (deliver ev c))). lia.
Qed.

(** X15: the heartbeat does not wait for the handshake: whenever the socket
    is open, an inbound [ping] frame without error is answered by the one
    frame [{id, type: "ping"}], and nothing else happens. *)
Theorem ping_is_answered_whenever_the_socket_is_open
    (data : string) (v : Value) (c : Client) :
  is_open c = true ->
  clean_frame "ping" data v ->
  _messageHandler data c =
    {| log := [ WsSend (JSON_stringify
                          (VObj [ ("id", VStr (clientId c));
                                  ("type", VStr "ping") ])) ];
       state := c;
       result := inl tt |}.
Proof.
  intros Hopen Hping.
  rewrite (_messageHandler_ping _ _ _ Hping), (send_open _ _ Hopen).
  reflexivity.
Qed.

(** ** The client id *)

Lemma N_toString36_digit (n : N) :
  (n < 36)%N -> N_toString36 n = String (digit36 n) "".
Proof.
  intros Hn. unfold N_toString36. cbn [base36_digits].
  rewrite N.mod_small, N.div_small by exact Hn. reflexivity.
Qed.

Lemma substring_from_empty (n : nat) :
  forall s, substring_from n s = "" <-> String.length s <= n.
Proof.
  induction n as [|n IH]; intros s.
  - destruct s; cbn; split; intros H; try reflexivity; try lia; discriminate H.
  - destruct s as [|a s]; cbn [substring_from String.length].
    + split; intros _; [lia | reflexivity].
    + rewrite IH. lia.
Qed.

(** X16: when [Math.random() + 1] is a positive number with a one-digit
    integer part (as every sum in [1, 2] is), the client id is what the
    platform prints after the point without its first five digits, and
    nothing when the sum is an integer: the id is empty exactly when the sum
    prints with at most five digits after the point. *)
Theorem clientId_is_the_tail_of_the_fraction
    (random : spec_float) (m : positive) (e : Z) :
  binary64_add random one = S754_finite false m e ->
  (integer_part m e < 36)%N ->
  generate_clientId random =
    (if has_fraction m e
     then substring_from 5 (fraction_digits36 (S754_finite false m e))
     else "") /\
  (generate_clientId random = "" <->
   has_fraction m e = false \/
   String.length (fraction_digits36 (S754_finite false m e)) <= 5).
Proof.
  intros Hsum Hint.
  assert (Hid : generate_clientId random =
                if has_fraction m e
                then substring_from 5 (fraction_digits36 (S754_finite false m e))
                else "").
  { unfold generate_clientId. rewrite Hsum. cbn [Number_toString36].
    rewrite (N_toString36_digit _ Hint).
    destruct (has_fraction m e); reflexivity. }
  split; [exact Hid|].
  rewrite Hid. destruct (has_fraction m e).
  - rewrite substring_from_empty. split; [intros H; right; exact H|].
    intros [H | H]; [discriminate H | exact H].
  - split; [intros _; left; reflexivity | reflexivity].
Qed.

End MoreProperties.

(** * The client on concrete frames *)

#[local] Existing Instance Sample.platform.

(** The decoder of the sample platform inverts its encoder on the frames it
    knows, and rejects a text that is not JSON. *)
Example sample_decoder :
  Forall (fun v => JSON_parse (Sample.encode v) = Some v) Sample.known_frames /\
  JSON_parse "garbage" = None.
Proof.
  split; [repeat constructor | reflexivity].
Qed.

(** ** Runs of the claims that hold *)


Lemma error_frames_reach_only_the_error_handler_witness :
  JSON_parse (Sample.encode Sample.failed_hello) = Some Sample.failed_hello /\
  carries_error (Get Sample.failed_hello "payload") = true /\
  log (_messageHandler (Sample.encode Sample.failed_hello) Sample.client) =
    [Invoke OnError (ARaw (Sample.encode Sample.failed_hello))].
Proof.
  split; [reflexivity|]. split; [reflexivity|].
  exact (proj1 (error_frames_reach_only_the_error_handler
                  (Sample.encode Sample.failed_hello) Sample.failed_hello
                  Sample.client eq_refl eq_refl)).
Defined.

Lemma pub_message_is_forwarded_verbatim_witness :
  clean_frame "pub" (Sample.encode Sample.pub_frame) Sample.pub_frame /\
  log (_messageHandler (Sample.encode Sample.pub_frame) Sample.client) =
    [Invoke OnPubMessage (AValue Sample.message1)].
Proof.
  assert (Hpub : clean_frame "pub" (Sample.encode Sample.pub_frame) Sample.pub_frame)
    by (repeat split).
  split; [exact Hpub|].
  exact (proj1 (pub_message_is_forwarded_verbatim _ _ Sample.client Hpub)).
Defined.

Lemma send_guard_witness :
  is_open Sample.client = false /\
  send "text" Sample.client = nothing Sample.client /\
  sendObject Sample.pub_frame Sample.client = nothing Sample.client /\
  subscribeToTopic "D2" (Sample.units "/u") Sample.client =
    nothing Sample.client /\
  _messageHandler (Sample.encode Sample.hello_ack) Sample.client =
    nothing Sample.client /\
  _messageHandler (Sample.encode Sample.ping_frame) Sample.client =
    nothing Sample.client.
Proof.
  split; [reflexivity|].
  destruct (send_guard Sample.client eq_refl)
    as (Hsend & Hobject & Hsubscribe & _ & _ & Hhello & Hping & _).
  split; [exact (Hsend "text")|].
  split; [exact (Hobject Sample.pub_frame eq_refl)|].
  split; [exact (Hsubscribe "D2" (Sample.units "/u") "L3U=" eq_refl)|].
  split.
  - apply (Hhello _ Sample.hello_ack "L3Q="); [repeat split | reflexivity].
  - apply (Hping _ Sample.ping_frame). repeat split.
Defined.

Lemma ping_is_answered_while_active_witness :
  phase_after Sample.handshake = SpecTable.ACTIVE /\
  clean_frame "ping" (Sample.encode Sample.ping_frame) Sample.ping_frame /\
  log (_messageHandler (Sample.encode Sample.ping_frame)
         (client_after Sample.handshake Sample.client)) =
    [ WsSend (Sample.stringify
                (VObj [ ("id", VStr "7zaor"); ("type", VStr "ping") ])) ].
Proof.
  assert (Hping : clean_frame "ping" (Sample.encode Sample.ping_frame) Sample.ping_frame)
    by (repeat split).
  split; [reflexivity|]. split; [exact Hping|].
  pose proof (ping_is_answered_while_active Sample.random "wss://x" "secret" "D1"
                (Sample.units "/t") Sample.handlers Sample.handshake _ _
                eq_refl Hping) as W.
  cbv zeta in W.
  change (constructor Sample.random "wss://x" "secret" "D1" (Sample.units "/t")
            Sample.handlers)
    with Sample.client in W.
  rewrite W. reflexivity.
Defined.


Lemma pub_and_hello_are_handled_in_every_phase_witness :
  JSON_parse (Sample.encode Sample.pub_frame) = Some Sample.pub_frame /\
  carries_error (Get Sample.pub_frame "payload") = false /\
  count (is_invoke OnPubMessage)
    (log (_messageHandler (Sample.encode Sample.pub_frame)
            (client_after [EvOpen] Sample.client))) = 1.
Proof.
  split; [reflexivity|]. split; [reflexivity|].
  exact (proj2 (proj1 (pub_and_hello_are_handled_in_every_phase
                         Sample.client [EvOpen] (Sample.encode Sample.pub_frame)
                         Sample.pub_frame eq_refl eq_refl)
                  eq_refl)).
Defined.


(** ** Runs of the claims that fail *)

(** With the exact digits, a half gives "1.i" and an empty client id too. *)
Example clientId_of_a_half :
  Number_toString36 (binary64_add Sample.half one) = "1.i" /\
  generate_clientId Sample.half = "".
Proof.
  split; vm_compute; reflexivity.
Qed.

(** C1 fails: on a new client whose transport has just opened, the table is in
    AWAITING_HELLO_ACK, and a [pub] frame is forwarded to the publish handler
    all the same; and two [hello] acknowledgements on one connection make the
    client send two [sub] frames. *)
Lemma pub_is_forwarded_before_the_handshake :
  phase_after [EvOpen] = SpecTable.AWAITING_HELLO_ACK /\
  log (deliver (EvMessage (Sample.encode Sample.pub_frame))
         (client_after [EvOpen] Sample.client)) =
    [Invoke OnPubMessage (AValue Sample.message1)] /\
  sent (effects_of
          [ EvOpen; EvMessage (Sample.encode Sample.hello_ack);
            EvMessage (Sample.encode Sample.hello_ack) ]
          Sample.client) =
    [ Sample.stringify (helloPayload Sample.client);
      Sample.stringify (subscribePayload Sample.client "D1" "L3Q=");
      Sample.stringify (subscribePayload Sample.client "D1" "L3Q=") ].
Proof.
  split; [|split]; vm_compute; reflexivity.
Qed.



(** C6 fails: on a new client, whose socket is not open, [sendObject] of a
    BigInt throws the [TypeError] of [JSON.stringify], [subscribeToTopic] with
    a topic that holds the euro sign throws the exception of [btoa], and a
    [hello] acknowledgement of a session with such a topic makes the client
    call the error handler. *)
Lemma the_encoders_run_before_the_guard :
  is_open Sample.client = false /\
  result (sendObject (VBigInt 1) Sample.client) = inr TypeError /\
  result (deliver (CallSendObject (VObj [ ("n", VBigInt 1) ])) Sample.client) =
    inr TypeError /\
  result (subscribeToTopic "D1" Sample.euro_topic Sample.client) =
    inr InvalidCharacterError /\
  is_open Sample.euro_client = false /\
  log (_messageHandler (Sample.encode Sample.hello_ack) Sample.euro_client) =
    [Invoke OnError (AError InvalidCharacterError)].
Proof.
  repeat split.
Qed.

(** C7 fails: on a new client, still CONNECTING, two calls of close in
    succession call the close handler not once but never, and leave the client
    as it was; the socket then opens and the client says hello. *)
Lemma close_twice_while_connecting :
  count (is_invoke OnClose)
    (effects_of [CallClose None None; CallClose None None] Sample.client) = 0 /\
  client_after [CallClose None None; CallClose None None] Sample.client =
    Sample.client /\
  effects_of [CallClose None None; CallClose None None; EvOpen] Sample.client =
    [WsSend (Sample.stringify (helloPayload Sample.client))].
Proof.
  split; [|split]; vm_compute; reflexivity.
Qed.

(** C8 fails: on an ACTIVE connection, a [ping] frame that carries a truthy
    [payload.error] goes to the error handler, and no [ping] response is
    sent. *)
Lemma failed_ping_is_not_answered :
  phase_after Sample.handshake = SpecTable.ACTIVE /\
  Get Sample.failed_ping "type" = VStr "ping" /\
  log (deliver (EvMessage (Sample.encode Sample.failed_ping))
         (client_after Sample.handshake Sample.client)) =
    [Invoke OnError (ARaw (Sample.encode Sample.failed_ping))].
Proof.
  split; [|split]; vm_compute; reflexivity.
Qed.

(** ** Runs of the further properties *)

Lemma undecodable_text_reaches_the_error_handler_witness :
  JSON_parse "garbage" = None /\
  log (_messageHandler "garbage" Sample.client) =
    [Invoke OnError (AError SyntaxError)].
Proof.
  split; [reflexivity|].
  exact (f_equal log
           (undecodable_text_reaches_the_error_handler "garbage" Sample.client
              eq_refl)).
Defined.

Lemma null_frame_reaches_the_error_handler_witness :
  @JSON_parse Edge.platform "null" = Some VNull /\
  log (_messageHandler (platform := Edge.platform) "null" Edge.client) =
    [Invoke OnError (AError TypeError)].
Proof.
  split; [reflexivity|].
  exact (f_equal log
           (null_frame_reaches_the_error_handler (platform := Edge.platform)
              "null" Edge.client eq_refl)).
Defined.

Lemma unrecognised_frames_reach_the_unexpected_handler_witness :
  @JSON_parse Edge.platform (Sample.encode Edge.welcome) =
    Some Edge.welcome /\
  log (_messageHandler (platform := Edge.platform)
         (Sample.encode Edge.welcome) Sample.client) =
    [Invoke OnUnexpectedMessage (ARaw (Sample.encode Edge.welcome))].
Proof.
  split; [reflexivity|].
  refine (proj1 (unrecognised_frames_reach_the_unexpected_handler
                   (platform := Edge.platform)
                   (Sample.encode Edge.welcome) Edge.welcome Sample.client
                   eq_refl _ _ eq_refl _)).
  - discriminate.
  - discriminate.
  - intros s H. injection H as <-. repeat split; discriminate.
Defined.

Lemma only_the_error_handler_makes_the_listener_throw_witness :
  result (_messageHandler (platform := Edge.platform) "garbage" Edge.client) =
    inr Edge.failure /\
  exists a,
    In (Invoke OnError a)
       (log (_messageHandler (platform := Edge.platform) "garbage" Edge.client)) /\
    errorHandler Edge.client a = Some Edge.failure.
Proof.
  split; [reflexivity|].
  exact (only_the_error_handler_makes_the_listener_throw
           (platform := Edge.platform) "garbage" Edge.client Edge.failure eq_refl).
Defined.

Lemma nothing_escapes_when_the_handlers_return_witness :
  (forall h a, handler_of Sample.client h a = None) /\
  forallb encodable
    (Sample.handshake ++
     [ CallSendObject Sample.pub_frame;
       CallSubscribeToTopic "D2" (Sample.units "/u");
       EvMessage "garbage"; EvClose 1000 "" ]) = true /\
  count is_uncaught
    (effects_of
       (Sample.handshake ++
        [ CallSendObject Sample.pub_frame;
          CallSubscribeToTopic "D2" (Sample.units "/u");
          EvMessage "garbage"; EvClose 1000 "" ])
       Sample.client) = 0.
Proof.
  assert (H : forall h a, handler_of Sample.client h a = None)
    by (intros h a; destruct h; reflexivity).
  split; [exact H|]. split; [reflexivity|].
  exact (nothing_escapes_when_the_handlers_return
           (Sample.handshake ++
            [ CallSendObject Sample.pub_frame;
              CallSubscribeToTopic "D2" (Sample.units "/u");
              EvMessage "garbage"; EvClose 1000 "" ])
           Sample.client H eq_refl).
Defined.

Lemma nothing_is_sent_until_the_open_event_witness :
  is_open Sample.client = false /\
  existsb is_open_event
    [ CallSend "text"; EvMessage (Sample.encode Sample.ping_frame);
      CallClose None None ] = false /\
  sent (effects_of
          [ CallSend "text"; EvMessage (Sample.encode Sample.ping_frame);
            CallClose None None ]
          Sample.client) = [].
Proof.
  split; [reflexivity|]. split; [reflexivity|].
  exact (proj1 (nothing_is_sent_until_the_open_event
                  [ CallSend "text"; EvMessage (Sample.encode Sample.ping_frame);
                    CallClose None None ]
                  Sample.client eq_refl eq_refl)).
Defined.

Lemma after_the_transport_closed_witness :
  existsb is_open_event
    [ CallClose None None; EvMessage (Sample.encode Sample.ping_frame) ] = false /\
  count is_ws_close
    (effects_of
       (EvClose 1000 "" ::
        [ CallClose None None; EvMessage (Sample.encode Sample.ping_frame) ])
       (client_after Sample.handshake Sample.client)) = 0.
Proof.
  split; [reflexivity|].
  exact (proj2 (proj2 (after_the_transport_closed 1000 ""
                         [ CallClose None None;
                           EvMessage (Sample.encode Sample.ping_frame) ]
                         (client_after Sample.handshake Sample.client) eq_refl))).
Defined.

Lemma explicit_subscription_keeps_the_session_topic_witness :
  is_open (client_after Sample.handshake Sample.client) = true /\
  btoa (Sample.units "/u") = inl "L3U=" /\
  btoa (topic (client_after Sample.handshake Sample.client)) = inl "L3Q=" /\
  clean_frame "hello" (Sample.encode Sample.hello_ack) Sample.hello_ack /\
  sent (effects_of
          [ CallSubscribeToTopic "D2" (Sample.units "/u");
            EvMessage (Sample.encode Sample.hello_ack) ]
          (client_after Sample.handshake Sample.client)) =
    [ Sample.stringify
        (VObj [ ("id", VStr "7zaor");
                ("path", VStr "/devices/D2/netfieldproxy/L3U=");
                ("type", VStr "sub") ]);
      Sample.stringify
        (VObj [ ("id", VStr "7zaor");
                ("path", VStr "/devices/D1/netfieldproxy/L3Q=");
                ("type", VStr "sub") ]) ].
Proof.
  assert (Hhello : clean_frame "hello" (Sample.encode Sample.hello_ack) Sample.hello_ack)
    by (repeat split).
  assert (Hopen : is_open (client_after Sample.handshake Sample.client) = true)
    by reflexivity.
  assert (Hb : btoa (Sample.units "/u") = inl "L3U=") by reflexivity.
  assert (Hb0 : btoa (topic (client_after Sample.handshake Sample.client)) =
                inl "L3Q=") by reflexivity.
  split; [exact Hopen|]. split; [exact Hb|]. split; [exact Hb0|].
  split; [exact Hhello|].
  rewrite (proj1 (explicit_subscription_keeps_the_session_topic
                    (client_after Sample.handshake Sample.client) "D2"
                    (Sample.units "/u") "L3U=" "L3Q=" _ _ Hopen Hb Hb0 Hhello)).
  reflexivity.
Defined.

Lemma only_protocol_frames_are_sent_witness :
  forallb from_transport
    (Sample.handshake ++ [EvMessage (Sample.encode Sample.ping_frame)]) = true /\
  Forall (fun s =>
            s = JSON_stringify (helloPayload Sample.client) \/
            (exists b,
               btoa (topic Sample.client) = inl b /\
               s = JSON_stringify (subscribePayload Sample.client "D1" b)) \/
            s = JSON_stringify (pingResponsePayload Sample.client))
         (sent (effects_of
                  (Sample.handshake ++ [EvMessage (Sample.encode Sample.ping_frame)])
                  Sample.client)).
Proof.
  split; [reflexivity|].
  exact (only_protocol_frames_are_sent
           (Sample.handshake ++ [EvMessage (Sample.encode Sample.ping_frame)])
           Sample.client eq_refl).
Defined.

Lemma ping_is_answered_whenever_the_socket_is_open_witness :
  is_open (client_after [EvOpen] Sample.client) = true /\
  clean_frame "ping" (Sample.encode Sample.ping_frame) Sample.ping_frame /\
  sent (log (_messageHandler (Sample.encode Sample.ping_frame)
               (client_after [EvOpen] Sample.client))) =
    [ Sample.stringify (VObj [ ("id", VStr "7zaor"); ("type", VStr "ping") ]) ].
Proof.
  assert (Hping : clean_frame "ping" (Sample.encode Sample.ping_frame) Sample.ping_frame)
    by (repeat split).
  assert (Hopen : is_open (client_after [EvOpen] Sample.client) = true)
    by reflexivity.
  split; [exact Hopen|]. split; [exact Hping|].
  rewrite (ping_is_answered_whenever_the_socket_is_open _ _
             (client_after [EvOpen] Sample.client) Hopen Hping).
  reflexivity.
Defined.

Lemma clientId_is_the_tail_of_the_fraction_witness :
  binary64_add Sample.random one = S754_finite false 7506000810606592 (-52) /\
  (integer_part 7506000810606592 (-52) < 36)%N /\
  generate_clientId Sample.random = "7zaor".
Proof.
  assert (Hsum : binary64_add Sample.random one =
                 S754_finite false 7506000810606592 (-52)) by reflexivity.
  assert (Hint : (integer_part 7506000810606592 (-52) < 36)%N) by reflexivity.
  split; [exact Hsum|]. split; [exact Hint|].
  rewrite (proj1 (clientId_is_the_tail_of_the_fraction Sample.random
                    7506000810606592 (-52) Hsum Hint)).
  reflexivity.
Defined.
